(** * Credit-card number engine: Luhn validation, generation, decomposition

    A shallow embedding of [api/models.py] and [api/exceptions.py]:
    the [CreditCard] record with its three constructors-by-classmethod
    [from_number], [with_invalid_number] and [generate_from_iin],
    together with the Python built-ins they call and the Luhn primitives
    [verify] and [generate] they import; then [CreditCard.serialized] and
    the three views of [api/views.py]. *)

From Stdlib Require Import ZArith Lia List Bool Arith PeanoNat.
From Stdlib Require Import Strings.Ascii Strings.String Numbers.DecimalString.
Import ListNotations.

Open Scope string_scope.

(** ** Exceptions and the result of a call

    [api/exceptions.py] declares the two domain errors.  [IndexError] is
    Python's own (subscripting out of range); [ProgrammerError] stands for
    the contract violation of the check-digit primitive on input that is
    not a non-empty decimal string. *)

Inductive exn : Type :=
| InvalidCardNumberError
| InvalidIinError
| IndexError
| ProgrammerError.

Inductive outcome (A : Type) : Type :=
| Ok (a : A)
| Raise (e : exn).

Arguments Ok {A} a.
Arguments Raise {A} e.

Definition bind {A B : Type} (m : outcome A) (k : A -> outcome B) : outcome B :=
  match m with
  | Ok a => k a
  | Raise e => Raise e
  end.

Notation "x <- m ;; k" := (bind m (fun x => k))
  (at level 61, m at next level, right associativity).

(** ** Python built-ins on [str]

    A [str] is modelled on the code points below 256: the character
    [ascii_of_nat n] is code point [n].  On that range [str.isdigit] holds
    of '0'..'9' and of the three superscript digits U+00B2, U+00B3 and
    U+00B9 (digits that are not decimal characters). *)

Module Py.

Definition len (s : string) : Z := Z.of_nat (String.length s).

Definition is_decimal_char (c : ascii) : bool :=
  let n := nat_of_ascii c in (48 <=? n)%nat && (n <=? 57)%nat.

Definition is_digit_char (c : ascii) : bool :=
  let n := nat_of_ascii c in
  is_decimal_char c || (n =? 178)%nat || (n =? 179)%nat || (n =? 185)%nat.

Fixpoint all_chars (p : ascii -> bool) (s : string) : bool :=
  match s with
  | EmptyString => true
  | String c s' => p c && all_chars p s'
  end.

(** [s.isdigit()]: at least one character, and every character a digit. *)
Definition isdigit (s : string) : bool :=
  match s with
  | EmptyString => false
  | String _ _ => all_chars is_digit_char s
  end.

(** Normalisation of a slice bound against the length [n]. *)
Definition clamp (n i : Z) : Z :=
  if (i <? 0)%Z then Z.max 0 (i + n) else Z.min i n.

(** [s[start:stop]], each bound optional. *)
Definition slice (s : string) (start stop : option Z) : string :=
  let n := len s in
  let a := match start with Some i => clamp n i | None => 0%Z end in
  let b := match stop with Some j => clamp n j | None => n end in
  substring (Z.to_nat a) (Z.to_nat (b - a)) s.

(** [s[i]]: a one-character string, or [IndexError]. *)
Definition getitem (s : string) (i : Z) : outcome string :=
  let n := len s in
  let j := if (i <? 0)%Z then (i + n)%Z else i in
  if (0 <=? j)%Z && (j <? n)%Z then
    match String.get (Z.to_nat j) s with
    | Some c => Ok (String c EmptyString)
    | None => Raise IndexError
    end
  else Raise IndexError.

(** [str(n)] for a non-negative integer. *)
Definition str (n : nat) : string := NilEmpty.string_of_uint (Nat.to_uint n).

(** [range(n)]: empty when [n] is not positive. *)
Definition range (n : Z) : list nat := seq 0 (Z.to_nat n).

(** ["".join(parts)]. *)
Definition join (parts : list string) : string :=
  fold_right String.append EmptyString parts.

(** [randint(lo, hi)] on one value of the entropy source: an integer
    between [lo] and [hi] inclusive, every one of them reachable. *)
Definition randint (lo hi : nat) (entropy : nat) : nat :=
  lo + entropy mod (hi - lo + 1).

End Py.

(** ** The Luhn primitives [verify] and [generate] *)

Module baluhn.

Definition digit_value (c : ascii) : option nat :=
  if Py.is_decimal_char c then Some (nat_of_ascii c - 48) else None.

Fixpoint digits_of (s : string) : option (list nat) :=
  match s with
  | EmptyString => Some []
  | String c s' =>
      match digit_value c, digits_of s' with
      | Some d, Some ds => Some (d :: ds)
      | _, _ => None
      end
  end.

(** Doubling a digit; a result of 10 or more loses 9. *)
Definition doubled (d : nat) : nat :=
  if (10 <=? 2 * d)%nat then 2 * d - 9 else 2 * d.

(** The weighted sum, over the digits listed from the right; [dbl] says
    whether the digit at the head is one of those doubled. *)
Fixpoint weighted_sum (dbl : bool) (from_right : list nat) : nat :=
  match from_right with
  | [] => 0
  | d :: rest => (if dbl then doubled d else d) + weighted_sum (negb dbl) rest
  end.

(** The rightmost digit is taken as it is, its left neighbour doubled,
    and so on leftwards. *)
Definition luhn_sum (ds : list nat) : nat := weighted_sum false (rev ds).

(** Modelled from the spec: the body of the imported [verify] (the
    checksum library is not part of the sources).  True iff the string is
    non-empty, holds only '0'..'9', and its weighted sum is 0 modulo 10;
    false, never an exception, on anything else. *)
Definition verify (s : string) : bool :=
  match digits_of s with
  | Some ((_ :: _) as ds) => (luhn_sum ds mod 10 =? 0)%nat
  | _ => false
  end.

(** Modelled from the spec: the body of the imported [generate] (the
    checksum library is not part of the sources).  The weighted sum of
    the input extended by "0" gives the digit [(10 - sum mod 10) mod 10];
    input that is empty or not all '0'..'9' is a contract violation. *)
Definition generate (s : string) : outcome string :=
  match digits_of s, digits_of (s ++ "0") with
  | Some (_ :: _), Some ds0 =>
      Ok (Py.str ((10 - luhn_sum ds0 mod 10) mod 10))
  | _, _ => Raise ProgrammerError
  end.

End baluhn.

(** ** The model class [CreditCard]

    Every character field is declared with [default=None], [is_valid] with
    [default=False]; a field left out of the constructor call keeps its
    default. *)

Record CreditCard : Type := mkCreditCard {
  number : option string;
  major_industry_identifier : option string;
  issuer_identification_number : option string;
  personal_account_number : option string;
  check_digit : option string;
  is_valid : bool
}.

(** The declared [max_length] of each character field (metadata of the
    field; the constructor does not consult it). *)
Definition number_max_length : nat := 20.
Definition major_industry_identifier_max_length : nat := 1.
Definition issuer_identification_number_max_length : nat := 6.
Definition personal_account_number_max_length : nat := 4.
Definition check_digit_max_length : nat := 1.

(** [CreditCard.from_number]. *)
Definition from_number (number : string) : outcome CreditCard :=
  if negb (Py.isdigit number) || negb (baluhn.verify number) then
    Raise InvalidCardNumberError
  else
    mii <- Py.getitem number 0 ;;
    let iin := Py.slice number None (Some 6%Z) in
    let pan := Py.slice number (Some 6%Z) (Some (-1)%Z) in
    cd <- Py.getitem number (-1) ;;
    Ok {| number := Some number;
          major_industry_identifier := Some mii;
          issuer_identification_number := Some iin;
          personal_account_number := Some pan;
          check_digit := Some cd;
          is_valid := true |}.

(** [CreditCard.with_invalid_number]: only [number] is passed. *)
Definition with_invalid_number (number : string) : CreditCard :=
  {| number := Some number;
     major_industry_identifier := None;
     issuer_identification_number := None;
     personal_account_number := None;
     check_digit := None;
     is_valid := false |}.

Section Generation.

(** [CARD_LENGTH] comes from [api/constants.py]; the entropy source
    feeds the successive [randint(0, 9)] calls. *)
Variable CARD_LENGTH : Z.
Variable entropy : nat -> nat.

Definition middle_digits (iin : string) : list string :=
  let middle_digits_len := (CARD_LENGTH - Py.len iin - 1)%Z in
  map (fun i => Py.str (Py.randint 0 9 (entropy i))) (Py.range middle_digits_len).

Definition digits_without_check_digit (iin : string) : string :=
  iin ++ Py.join (middle_digits iin).

(** [CreditCard.generate_from_iin]. *)
Definition generate_from_iin (iin : string) : outcome CreditCard :=
  if negb ((0 <? Py.len iin)%Z && (Py.len iin <? 3)%Z) || negb (Py.isdigit iin) then
    Raise InvalidIinError
  else
    check_digit <- baluhn.generate (digits_without_check_digit iin) ;;
    let number := digits_without_check_digit iin ++ check_digit in
    from_number number.

End Generation.

(** The decomposition invariant of the data model, read on a record:
    MII, then the IIN without its first character, then PAN, then the
    check digit. *)
Definition recomposed (c : CreditCard) : option string :=
  match major_industry_identifier c, issuer_identification_number c,
        personal_account_number c, check_digit c with
  | Some mii, Some iin, Some pan, Some cd =>
      Some (mii ++ Py.slice iin (Some 1%Z) None ++ pan ++ cd)
  | _, _, _, _ => None
  end.

(** U+00B2 SUPERSCRIPT TWO as a one-character [str]. *)
Definition superscript_two : string := String (ascii_of_nat 178) EmptyString.

(** Every character is one of '0'..'9'. *)
Definition all_decimal (s : string) : bool := Py.all_chars Py.is_decimal_char s.

(** The record [from_number] builds once its guard has let [number]
    through, with the two subscripts written as one-character slices. *)
Definition decomposition (number : string) : CreditCard :=
  {| number := Some number;
     major_industry_identifier := Some (substring 0 1 number);
     issuer_identification_number := Some (Py.slice number None (Some 6%Z));
     personal_account_number := Some (Py.slice number (Some 6%Z) (Some (-1)%Z));
     check_digit := Some (substring (String.length number - 1) 1 number);
     is_valid := true |}.

(** ** [from_number] over any [verify]

    The tests replace the imported [verify] by a mock
    ([@patch("api.models.verify")]); this is the same body with that
    function as an argument. *)
Definition from_number_with (verify : string -> bool) (number : string)
  : outcome CreditCard :=
  if negb (Py.isdigit number) || negb (verify number) then
    Raise InvalidCardNumberError
  else
    mii <- Py.getitem number 0 ;;
    let iin := Py.slice number None (Some 6%Z) in
    let pan := Py.slice number (Some 6%Z) (Some (-1)%Z) in
    cd <- Py.getitem number (-1) ;;
    Ok {| number := Some number;
          major_industry_identifier := Some mii;
          issuer_identification_number := Some iin;
          personal_account_number := Some pan;
          check_digit := Some cd;
          is_valid := true |}.

(** ** Attribute values and dictionaries

    A [dict] keeps its keys in insertion order, each key once. *)

Inductive value : Type :=
| VNone
| VStr (s : string)
| VBool (b : bool)
| VModelState.

Definition dict : Type := list (string * value).

Module PyDict.

(** [d[k] = v]: an existing key keeps its place. *)
Fixpoint setitem (k : string) (v : value) (d : dict) : dict :=
  match d with
  | [] => [(k, v)]
  | (k', v') :: rest =>
      if (k' =? k)%string then (k, v) :: rest
      else (k', v') :: setitem k v rest
  end.

(** [dict(items)]. *)
Definition of_items (items : list (string * value)) : dict :=
  fold_left (fun d kv => setitem (fst kv) (snd kv) d) items [].

Fixpoint get (k : string) (d : dict) : option value :=
  match d with
  | [] => None
  | (k', v) :: rest => if (k' =? k)%string then Some v else get k rest
  end.

Fixpoint remove (k : string) (d : dict) : dict :=
  match d with
  | [] => []
  | (k', v) :: rest =>
      if (k' =? k)%string then rest else (k', v) :: remove k rest
  end.

(** [del d[k]]: [None] stands for [KeyError]. *)
Definition delitem (k : string) (d : dict) : option dict :=
  match get k d with
  | Some _ => Some (remove k d)
  | None => None
  end.

Definition keys (d : dict) : list string := map fst d.

End PyDict.

(** An exception seen by a caller of the views: one of the engine's, or
    the [KeyError] of a [del] on a missing key. *)
Inductive py_exn : Type :=
| Engine (e : exn)
| KeyError.

Inductive result (A : Type) : Type :=
| Return (a : A)
| Throw (e : py_exn).

Arguments Return {A} a.
Arguments Throw {A} e.

Definition opt_value (o : option string) : value :=
  match o with
  | Some s => VStr s
  | None => VNone
  end.

(** [self.__dict__] of an unsaved instance: the two keys inherited from
    the model base class, then the fields in declaration order. *)
Definition instance_dict (c : CreditCard) : list (string * value) :=
  [ ("_state", VModelState);
    ("id", VNone);
    ("number", opt_value (number c));
    ("major_industry_identifier", opt_value (major_industry_identifier c));
    ("issuer_identification_number", opt_value (issuer_identification_number c));
    ("personal_account_number", opt_value (personal_account_number c));
    ("check_digit", opt_value (check_digit c));
    ("is_valid", VBool (is_valid c)) ].

(** [CreditCard.__iter__]. *)
Definition CreditCard_iter (c : CreditCard) : list (string * value) :=
  filter (fun kv => negb (existsb (String.eqb (fst kv)) ["_state"; "id"]))
         (instance_dict c).

(** The names of the six declared fields. *)
Definition field_names : list string :=
  [ "number"; "major_industry_identifier"; "issuer_identification_number";
    "personal_account_number"; "check_digit"; "is_valid" ].

(** ** Requests and responses

    A request is read only through [request.GET.get]; a response is its
    status code and the data handed to it. *)

Record HttpRequest : Type := mkRequest {
  GET : string -> option string
}.

Inductive content : Type :=
| NoContent
| JsonContent (data : dict).

Record HttpResponse : Type := mkResponse {
  status_code : nat;
  payload : content
}.

(** [JsonResponse(data)], status 200 until reassigned. *)
Definition JsonResponse (data : dict) : HttpResponse :=
  {| status_code := 200; payload := JsonContent data |}.

Definition with_status (code : nat) (r : HttpResponse) : HttpResponse :=
  {| status_code := code; payload := payload r |}.

(** [views.index]. *)
Definition index (request : HttpRequest) : HttpResponse :=
  {| status_code := 200; payload := NoContent |}.

Section Views.

(** [NUMBER] and the two messages come from [api/constants.py]. *)
Variable NUMBER : string.
Variable VALIDATE_BAD_REQUEST_NONE : string.
Variable GENERATE_BAD_REQUEST_NONE : string.
Variable CARD_LENGTH : Z.

(** [CreditCard.serialized]. *)
Definition serialized (c : CreditCard) (with_number : bool) : result dict :=
  let res := PyDict.of_items (CreditCard_iter c) in
  if negb with_number then
    match PyDict.delitem NUMBER res with
    | Some res' => Return res'
    | None => Throw KeyError
    end
  else Return res.

(** [ValidateView.get]. *)
Definition ValidateView_get (request : HttpRequest) : result HttpResponse :=
  match GET request NUMBER with
  | None =>
      Return (with_status 400
                (JsonResponse [("error", VStr VALIDATE_BAD_REQUEST_NONE)]))
  | Some number =>
      match from_number number with
      | Raise InvalidCardNumberError =>
          match serialized (with_invalid_number number) false with
          | Return data => Return (with_status 400 (JsonResponse data))
          | Throw e => Throw e
          end
      | Raise e => Throw (Engine e)
      | Ok credit_card =>
          match serialized credit_card false with
          | Return data => Return (JsonResponse data)
          | Throw e => Throw e
          end
      end
  end.

(** [GenerateView.get]; [entropy] feeds the draws of this request. *)
Definition GenerateView_get (entropy : nat -> nat) (request : HttpRequest)
  : result HttpResponse :=
  match GET request "iin" with
  | None =>
      Return (with_status 400
                (JsonResponse [("error", VStr GENERATE_BAD_REQUEST_NONE)]))
  | Some iin =>
      match generate_from_iin CARD_LENGTH entropy iin with
      | Raise InvalidIinError =>
          Return (with_status 400
                    (JsonResponse
                       [("error",
                         VStr "IINs should be only digits and either length one or two. Try 65!")]))
      | Raise e => Throw (Engine e)
      | Ok credit_card =>
          match serialized credit_card true with
          | Return data => Return (JsonResponse data)
          | Throw e => Throw e
          end
      end
  end.

End Views.

(** * Facts about strings and slices *)

Section StringFacts.

Lemma length_append (a b : string) :
  String.length (a ++ b) = String.length a + String.length b.
Proof. induction a as [|c a IH]; simpl; [reflexivity | now rewrite IH]. Qed.

Lemma append_empty_r (s : string) : s ++ "" = s.
Proof. induction s as [|c s IH]; simpl; [reflexivity | now rewrite IH]. Qed.

Lemma append_assoc (a b c : string) : (a ++ b) ++ c = a ++ (b ++ c).
Proof. induction a as [|x a IH]; simpl; [reflexivity | now rewrite IH]. Qed.

Lemma substring_none (n : nat) (s : string) : substring n 0 s = "".
Proof.
  revert n; induction s as [|c s IH]; intros [|n]; simpl; auto.
Qed.

Lemma substring_whole (m : nat) (s : string) :
  String.length s <= m -> substring 0 m s = s.
Proof.
  revert m; induction s as [|c s IH]; intros [|m] H; simpl in *;
    try reflexivity; try lia.
  f_equal; apply IH; lia.
Qed.

Lemma substring_split (a m1 m2 : nat) (s : string) :
  substring a (m1 + m2) s = substring a m1 s ++ substring (a + m1) m2 s.
Proof.
  revert a m1; induction s as [|c s IH]; intros a m1.
  - destruct a, m1, m2; reflexivity.
  - destruct a as [|a]; simpl.
    + destruct m1 as [|m1]; simpl; [reflexivity|].
      f_equal. apply (IH 0 m1).
    + apply IH.
Qed.

Lemma length_substring (n m : nat) (s : string) :
  n + m <= String.length s -> String.length (substring n m s) = m.
Proof.
  revert n m; induction s as [|c s IH]; intros [|n] [|m] H; simpl in *;
    try reflexivity; try lia.
  - f_equal; apply (IH 0 m); lia.
  - apply (IH n 0); lia.
  - apply (IH n (S m)); lia.
Qed.

Lemma substring_of_prefix (a m k : nat) (s : string) :
  a + m <= k -> substring a m (substring 0 k s) = substring a m s.
Proof.
  revert a m k; induction s as [|c s IH]; intros a m k H.
  - destruct k; reflexivity.
  - destruct k as [|k].
    + assert (a = 0) by lia; assert (m = 0) by lia; subst; reflexivity.
    + simpl. destruct a as [|a].
      * destruct m as [|m]; [reflexivity|].
        simpl. f_equal. apply (IH 0 m k); lia.
      * apply (IH a m k); lia.
Qed.

Lemma get_in_range (k : nat) (s : string) :
  k < String.length s -> exists c, String.get k s = Some c.
Proof.
  revert k; induction s as [|c s IH]; intros k H; simpl in *; [lia|].
  destruct k as [|k]; [now exists c | apply IH; lia].
Qed.

Lemma get_substring (k : nat) (s : string) (c : ascii) :
  String.get k s = Some c -> substring k 1 s = String c "".
Proof.
  revert k; induction s as [|x s IH]; intros k H; simpl in *; [discriminate|].
  destruct k as [|k].
  - injection H as ->. simpl. now rewrite substring_none.
  - now apply IH.
Qed.

Lemma substring_last (p : string) (c : ascii) :
  substring (String.length p) 1 (p ++ String c "") = String c "".
Proof. induction p as [|x p IH]; simpl; [reflexivity | exact IH]. Qed.

Lemma string_snoc (s : string) :
  s <> "" -> exists p c, s = p ++ String c "".
Proof.
  induction s as [|x s IH]; intros H; [congruence|].
  destruct s as [|y s].
  - exists "", x; reflexivity.
  - destruct IH as (p & c & E); [discriminate|].
    exists (String x p), c. simpl. now rewrite <- E.
Qed.

Lemma all_chars_app (p : ascii -> bool) (a b : string) :
  Py.all_chars p (a ++ b) = Py.all_chars p a && Py.all_chars p b.
Proof.
  induction a as [|c a IH]; simpl; [reflexivity|].
  now rewrite IH, andb_assoc.
Qed.

Lemma prefix_append (a b : string) : prefix a (a ++ b) = true.
Proof.
  induction a as [|c a IH]; simpl.
  - destruct b; reflexivity.
  - destruct (ascii_dec c c); [exact IH | congruence].
Qed.

End StringFacts.

(** * Facts about the Luhn primitives *)

Section LuhnFacts.

Lemma digit_value_some (c : ascii) (d : nat) :
  baluhn.digit_value c = Some d -> Py.is_decimal_char c = true /\ d < 10.
Proof.
  unfold baluhn.digit_value.
  destruct (Py.is_decimal_char c) eqn:E; [|discriminate].
  intros [= <-]. split; [reflexivity|].
  unfold Py.is_decimal_char in E.
  apply andb_prop in E as [E1 E2].
  apply Nat.leb_le in E1, E2. lia.
Qed.

Lemma digits_of_app (a b : string) (da db : list nat) :
  baluhn.digits_of a = Some da -> baluhn.digits_of b = Some db ->
  baluhn.digits_of (a ++ b) = Some (da ++ db)%list.
Proof.
  revert da; induction a as [|c a IH]; simpl; intros da Ha Hb.
  - injection Ha as <-. exact Hb.
  - destruct (baluhn.digit_value c) as [d|]; [|discriminate].
    destruct (baluhn.digits_of a) as [ds|]; [|discriminate].
    injection Ha as <-. now rewrite (IH ds eq_refl Hb).
Qed.

Lemma digits_of_decimal (s : string) :
  all_decimal s = true ->
  exists ds, baluhn.digits_of s = Some ds /\ List.length ds = String.length s.
Proof.
  unfold all_decimal.
  induction s as [|c s IH]; simpl; intros H.
  - now exists [].
  - apply andb_prop in H as [Hc Hs].
    destruct (IH Hs) as (ds & E & L).
    unfold baluhn.digit_value. rewrite Hc, E.
    eexists; split; [reflexivity | simpl; now rewrite L].
Qed.

Lemma digits_of_some (s : string) (ds : list nat) :
  baluhn.digits_of s = Some ds ->
  all_decimal s = true /\ List.length ds = String.length s.
Proof.
  unfold all_decimal.
  revert ds; induction s as [|c s IH]; simpl; intros ds H.
  - injection H as <-. now split.
  - destruct (baluhn.digit_value c) as [d|] eqn:Ec; [|discriminate].
    destruct (baluhn.digits_of s) as [ds'|]; [|discriminate].
    injection H as <-.
    destruct (IH ds' eq_refl) as [Hs L].
    apply digit_value_some in Ec as [Hc _].
    rewrite Hc, Hs. split; [reflexivity | simpl; now rewrite L].
Qed.

Lemma decimal_char_is_digit (c : ascii) :
  Py.is_decimal_char c = true -> Py.is_digit_char c = true.
Proof. unfold Py.is_digit_char. now intros ->. Qed.

Lemma decimal_is_digit (s : string) :
  s <> "" -> all_decimal s = true -> Py.isdigit s = true.
Proof.
  unfold all_decimal.
  intros Hne H. destruct s as [|c s]; [congruence|].
  unfold Py.isdigit. clear Hne.
  revert H. generalize (String c s) as t.
  induction t as [|x t IH]; simpl; [reflexivity|].
  intros H. apply andb_prop in H as [Hx Ht].
  now rewrite (decimal_char_is_digit _ Hx), (IH Ht).
Qed.

Lemma luhn_sum_snoc (ds : list nat) (x : nat) :
  baluhn.luhn_sum (ds ++ [x])%list = x + baluhn.weighted_sum true (rev ds).
Proof. unfold baluhn.luhn_sum. now rewrite rev_app_distr. Qed.

Lemma check_digit_closes (t : nat) :
  ((10 - t mod 10) mod 10 + t) mod 10 = 0.
Proof.
  assert (H : forall r q, r < 10 ->
              ((10 - r) mod 10 + (10 * q + r)) mod 10 = 0).
  { intros r q Hr. destruct (Nat.eq_dec r 0) as [->|Hr0].
    - change ((10 - 0) mod 10) with 0.
      replace (0 + (10 * q + 0)) with (q * 10) by lia.
      apply Nat.Div0.mod_mul.
    - rewrite (Nat.mod_small (10 - r)) by lia.
      replace (10 - r + (10 * q + r)) with ((q + 1) * 10) by lia.
      apply Nat.Div0.mod_mul. }
  pose proof (H (t mod 10) (t / 10)
                (Nat.mod_upper_bound t 10 ltac:(lia))) as G.
  now rewrite <- (Nat.div_mod_eq t 10) in G.
Qed.

Lemma str_digit (d : nat) :
  d < 10 ->
  exists c, Py.str d = String c "" /\ baluhn.digit_value c = Some d.
Proof.
  intros H.
  do 10 (destruct d as [|d]; [eexists; split; reflexivity|]).
  lia.
Qed.

Lemma verify_of_digits (s : string) (ds : list nat) :
  baluhn.digits_of s = Some ds -> ds <> [] ->
  baluhn.verify s = (baluhn.luhn_sum ds mod 10 =? 0)%nat.
Proof.
  intros E Hne. unfold baluhn.verify. rewrite E.
  destruct ds; [congruence | reflexivity].
Qed.

Lemma verify_true (s : string) :
  baluhn.verify s = true ->
  s <> "" /\ all_decimal s = true /\
  exists ds, baluhn.digits_of s = Some ds /\ baluhn.luhn_sum ds mod 10 = 0.
Proof.
  unfold baluhn.verify.
  destruct (baluhn.digits_of s) as [ds|] eqn:E; [|discriminate].
  destruct ds as [|d ds]; [discriminate|].
  intros H. apply Nat.eqb_eq in H.
  destruct (digits_of_some _ _ E) as [Hd L].
  repeat split; [|exact Hd|now exists (d :: ds)].
  intros ->. discriminate.
Qed.

Lemma verify_false_empty : baluhn.verify "" = false.
Proof. reflexivity. Qed.

Lemma verify_is_digit (s : string) :
  baluhn.verify s = true -> Py.isdigit s = true.
Proof.
  intros H. apply verify_true in H as (Hne & Hd & _).
  now apply decimal_is_digit.
Qed.

Lemma generate_verifies (s : string) :
  s <> "" -> all_decimal s = true ->
  exists d, d < 10 /\ baluhn.generate s = Ok (Py.str d) /\
            baluhn.verify (s ++ Py.str d) = true.
Proof.
  intros Hne Hd.
  destruct (digits_of_decimal s Hd) as (ds & E & L).
  assert (Hds : ds <> []).
  { intros ->. destruct s; [congruence | discriminate]. }
  assert (E0 : baluhn.digits_of (s ++ "0") = Some (ds ++ [0])%list)
    by (apply digits_of_app; [exact E | reflexivity]).
  set (w := baluhn.weighted_sum true (rev ds)).
  exists ((10 - w mod 10) mod 10).
  split; [apply Nat.mod_upper_bound; lia|].
  split.
  - unfold baluhn.generate. rewrite E, E0, luhn_sum_snoc.
    destruct ds; [congruence | reflexivity].
  - destruct (str_digit ((10 - w mod 10) mod 10)) as (c & Ec & Ev);
      [apply Nat.mod_upper_bound; lia|].
    rewrite Ec.
    assert (E1 : baluhn.digits_of (s ++ String c "")
                 = Some (ds ++ [(10 - w mod 10) mod 10])%list).
    { apply digits_of_app; [exact E|]. simpl. now rewrite Ev. }
    rewrite (verify_of_digits _ _ E1).
    + rewrite luhn_sum_snoc. apply Nat.eqb_eq. apply check_digit_closes.
    + intros F. apply app_eq_nil in F as [_ F]. discriminate.
Qed.

End LuhnFacts.

(** * Facts about slicing and [from_number] *)

Section FromNumberFacts.

Lemma slice_upto (s : string) (k : nat) :
  Py.slice s None (Some (Z.of_nat k)) = substring 0 (Nat.min k (String.length s)) s.
Proof.
  unfold Py.slice, Py.clamp, Py.len.
  destruct (Z.ltb_spec (Z.of_nat k) 0); [lia|].
  f_equal; lia.
Qed.

Lemma slice_from (s : string) (a : nat) :
  Py.slice s (Some (Z.of_nat a)) None
  = substring (Nat.min a (String.length s))
              (String.length s - Nat.min a (String.length s)) s.
Proof.
  unfold Py.slice, Py.clamp, Py.len.
  destruct (Z.ltb_spec (Z.of_nat a) 0); [lia|].
  f_equal; lia.
Qed.

Lemma slice_from_to_last (s : string) (a : nat) :
  Py.slice s (Some (Z.of_nat a)) (Some (-1)%Z)
  = substring (Nat.min a (String.length s))
              (String.length s - 1 - Nat.min a (String.length s)) s.
Proof.
  unfold Py.slice, Py.clamp, Py.len.
  destruct (Z.ltb_spec (Z.of_nat a) 0); [lia|].
  destruct (Z.ltb_spec (-1) 0); [|lia].
  f_equal; lia.
Qed.

Lemma length_pos (s : string) : s <> "" -> 0 < String.length s.
Proof. destruct s; [congruence | simpl; lia]. Qed.

Lemma getitem_first (s : string) :
  s <> "" -> Py.getitem s 0 = Ok (substring 0 1 s).
Proof.
  intros H. destruct s as [|c s]; [congruence|].
  unfold Py.getitem, Py.len.
  change (0 <? 0)%Z with false. cbv iota.
  destruct (Z.ltb_spec 0 (Z.of_nat (String.length (String c s))));
    [|simpl in *; lia].
  simpl. now rewrite substring_none.
Qed.

Lemma getitem_last (s : string) :
  s <> "" -> Py.getitem s (-1) = Ok (substring (String.length s - 1) 1 s).
Proof.
  intros H. apply length_pos in H.
  unfold Py.getitem, Py.len.
  change (-1 <? 0)%Z with true. cbv iota.
  destruct (Z.leb_spec 0 (-1 + Z.of_nat (String.length s))); [|lia].
  destruct (Z.ltb_spec (-1 + Z.of_nat (String.length s))
                       (Z.of_nat (String.length s))); [|lia].
  simpl andb. cbv iota.
  replace (Z.to_nat (-1 + Z.of_nat (String.length s)))
    with (String.length s - 1) by lia.
  destruct (get_in_range (String.length s - 1) s) as (c & E); [lia|].
  now rewrite E, (get_substring _ _ _ E).
Qed.

(** [from_number] in one equation: the guard is the Luhn check alone,
    since a string that verifies is a non-empty decimal string. *)
Lemma from_number_eq (s : string) :
  from_number s = if baluhn.verify s then Ok (decomposition s)
                  else Raise InvalidCardNumberError.
Proof.
  unfold from_number.
  destruct (baluhn.verify s) eqn:V.
  - rewrite (verify_is_digit _ V). simpl orb. cbv iota.
    apply verify_true in V as (Hne & _).
    rewrite (getitem_first _ Hne), (getitem_last _ Hne). reflexivity.
  - now rewrite orb_true_r.
Qed.

Lemma from_number_ok (s : string) (r : CreditCard) :
  from_number s = Ok r -> baluhn.verify s = true /\ r = decomposition s.
Proof.
  rewrite from_number_eq. destruct (baluhn.verify s); [|discriminate].
  intros [= <-]. now split.
Qed.

Lemma from_number_raise (s : string) (e : exn) :
  from_number s = Raise e ->
  e = InvalidCardNumberError /\ baluhn.verify s = false.
Proof.
  rewrite from_number_eq. destruct (baluhn.verify s); [discriminate|].
  intros [= <-]. now split.
Qed.

Lemma recomposed_decomposition (s : string) :
  7 <= String.length s -> recomposed (decomposition s) = Some s.
Proof.
  intros H. unfold recomposed, decomposition. simpl. f_equal.
  change 6%Z with (Z.of_nat 6). change 1%Z with (Z.of_nat 1).
  rewrite (slice_from_to_last s 6), (slice_upto s 6).
  rewrite (Nat.min_l 6 (String.length s)) by lia.
  rewrite (slice_from (substring 0 6 s) 1).
  rewrite (length_substring 0 6 s) by lia.
  change (Nat.min 1 6) with 1. change (6 - 1) with 5.
  rewrite (substring_of_prefix 1 5 6 s) by lia.
  set (n := String.length s) in *.
  assert (E3 : substring 6 (n - 1 - 6) s ++ substring (n - 1) 1 s
               = substring 6 (n - 6) s).
  { replace (n - 6) with ((n - 1 - 6) + 1) by lia.
    rewrite substring_split. do 2 f_equal. lia. }
  rewrite E3.
  assert (E2 : substring 1 5 s ++ substring 6 (n - 6) s
               = substring 1 (n - 1) s).
  { replace (n - 1) with (5 + (n - 6)) by lia.
    now rewrite substring_split. }
  rewrite E2.
  assert (E1 : substring 0 1 s ++ substring 1 (n - 1) s
               = substring 0 (1 + (n - 1)) s)
    by now rewrite substring_split.
  rewrite E1. apply substring_whole. unfold n. lia.
Qed.

End FromNumberFacts.

(** * Facts about [generate_from_iin] *)

Section GenerationFacts.

Variable CARD_LENGTH : Z.
Variable entropy : nat -> nat.

Lemma randint_digit (e : nat) : Py.randint 0 9 e < 10.
Proof. unfold Py.randint. apply Nat.mod_upper_bound. discriminate. Qed.

(** Every digit is the outcome of some draw. *)
Lemma randint_reaches (d : nat) : d <= 9 -> Py.randint 0 9 d = d.
Proof.
  intros H. unfold Py.randint.
  change (9 - 0 + 1) with 10. rewrite Nat.mod_small; lia.
Qed.

Lemma join_draws (l : list nat) :
  let parts := map (fun i => Py.str (Py.randint 0 9 (entropy i))) l in
  all_decimal (Py.join parts) = true /\
  String.length (Py.join parts) = List.length l.
Proof.
  induction l as [|i l [IHd IHl]]; simpl; [now split|].
  destruct (str_digit _ (randint_digit (entropy i))) as (c & -> & Ev).
  apply digit_value_some in Ev as [Hc _].
  simpl. unfold all_decimal in *. simpl. rewrite Hc.
  split; [exact IHd | now f_equal].
Qed.

Lemma middle_digits_decimal (iin : string) :
  all_decimal (Py.join (middle_digits CARD_LENGTH entropy iin)) = true.
Proof. apply join_draws. Qed.

Lemma middle_digits_length (iin : string) :
  String.length (Py.join (middle_digits CARD_LENGTH entropy iin))
  = Z.to_nat (CARD_LENGTH - Py.len iin - 1).
Proof.
  unfold middle_digits.
  rewrite (proj2 (join_draws _)). unfold Py.range. apply length_seq.
Qed.

Lemma iin_length_guard (iin : string) :
  (0 <? Py.len iin)%Z && (Py.len iin <? 3)%Z = true
  <-> 1 <= String.length iin <= 2.
Proof.
  unfold Py.len. rewrite andb_true_iff, !Z.ltb_lt. lia.
Qed.

Lemma generate_ok_inv (s c : string) :
  baluhn.generate s = Ok c -> s <> "" /\ all_decimal s = true.
Proof.
  unfold baluhn.generate.
  destruct (baluhn.digits_of s) as [ds|] eqn:E; [|discriminate].
  destruct ds as [|d ds]; [discriminate|]. intros _.
  split; [intros ->; discriminate | apply (digits_of_some _ _ E)].
Qed.

Lemma generate_raise (s : string) (e : exn) :
  baluhn.generate s = Raise e -> e = ProgrammerError.
Proof.
  unfold baluhn.generate.
  destruct (baluhn.digits_of s) as [[|d ds]|];
    try destruct (baluhn.digits_of (s ++ "0")); congruence.
Qed.

Lemma body_decimal (iin : string) :
  all_decimal (digits_without_check_digit CARD_LENGTH entropy iin) = all_decimal iin.
Proof.
  unfold digits_without_check_digit, all_decimal.
  rewrite all_chars_app.
  fold (all_decimal (Py.join (middle_digits CARD_LENGTH entropy iin))).
  rewrite middle_digits_decimal. apply andb_true_r.
Qed.

Lemma body_nonempty (iin : string) :
  iin <> "" -> digits_without_check_digit CARD_LENGTH entropy iin <> "".
Proof.
  unfold digits_without_check_digit.
  destruct iin; [congruence | discriminate].
Qed.

(** For a prefix of one or two decimal digits the call returns the
    decomposition of body plus check digit, whatever the draws. *)
Lemma generate_from_iin_valid (iin : string) :
  1 <= String.length iin <= 2 -> all_decimal iin = true ->
  exists d,
    d < 10 /\
    baluhn.generate (digits_without_check_digit CARD_LENGTH entropy iin) = Ok (Py.str d) /\
    baluhn.verify (digits_without_check_digit CARD_LENGTH entropy iin ++ Py.str d) = true /\
    generate_from_iin CARD_LENGTH entropy iin
    = Ok (decomposition (digits_without_check_digit CARD_LENGTH entropy iin ++ Py.str d)) /\
    String.length (digits_without_check_digit CARD_LENGTH entropy iin ++ Py.str d)
    = String.length iin + Z.to_nat (CARD_LENGTH - Py.len iin - 1) + 1.
Proof.
  intros Hl Hd.
  assert (Hne : iin <> "") by (intros ->; simpl in Hl; lia).
  destruct (generate_verifies
              (digits_without_check_digit CARD_LENGTH entropy iin))
    as (d & Hd10 & G & V).
  { now apply body_nonempty. }
  { now rewrite body_decimal. }
  exists d. repeat split; try assumption.
  - unfold generate_from_iin.
    rewrite (proj2 (iin_length_guard iin) Hl).
    rewrite (decimal_is_digit _ Hne Hd). simpl orb. cbv iota.
    rewrite G. simpl bind.
    now rewrite from_number_eq, V.
  - destruct (str_digit _ Hd10) as (c & -> & _).
    unfold digits_without_check_digit.
    rewrite !length_append, middle_digits_length. reflexivity.
Qed.

(** The only place that raises [InvalidIinError] is the guard. *)
Lemma generate_from_iin_guard (iin : string) :
  generate_from_iin CARD_LENGTH entropy iin = Raise InvalidIinError
  <-> negb ((0 <? Py.len iin)%Z && (Py.len iin <? 3)%Z)
      || negb (Py.isdigit iin) = true.
Proof.
  unfold generate_from_iin.
  destruct (negb ((0 <? Py.len iin)%Z && (Py.len iin <? 3)%Z)
            || negb (Py.isdigit iin)); [now split|].
  split; [|discriminate].
  destruct (baluhn.generate _) as [c|e] eqn:G; simpl.
  - intros H. apply from_number_raise in H as [H _]. discriminate.
  - apply generate_raise in G as ->. discriminate.
Qed.

Lemma generate_from_iin_ok_inv (iin : string) (r : CreditCard) :
  generate_from_iin CARD_LENGTH entropy iin = Ok r ->
  1 <= String.length iin <= 2 /\ all_decimal iin = true.
Proof.
  unfold generate_from_iin.
  destruct ((0 <? Py.len iin)%Z && (Py.len iin <? 3)%Z) eqn:Hl;
    [|discriminate].
  destruct (Py.isdigit iin); [|discriminate]. simpl.
  destruct (baluhn.generate _) as [c|e] eqn:G; [|discriminate].
  intros _. apply generate_ok_inv in G as [_ G].
  rewrite body_decimal in G.
  split; [now apply iin_length_guard | exact G].
Qed.

Lemma generate_from_iin_raise (iin : string) (e : exn) :
  generate_from_iin CARD_LENGTH entropy iin = Raise e ->
  e = InvalidIinError \/ e = ProgrammerError.
Proof.
  unfold generate_from_iin.
  destruct (negb ((0 <? Py.len iin)%Z && (Py.len iin <? 3)%Z)) eqn:Hl;
    [intros [= <-]; now left|].
  destruct (Py.isdigit iin) eqn:Hi; [|intros [= <-]; now left]. simpl.
  destruct (baluhn.generate _) as [c|e'] eqn:G; simpl.
  - intros H. exfalso.
    destruct (generate_ok_inv _ _ G) as [_ D].
    rewrite body_decimal in D.
    apply negb_false_iff, iin_length_guard in Hl.
    destruct (generate_from_iin_valid iin Hl D) as (d & _ & G' & V & _).
    rewrite G in G'. injection G' as ->.
    rewrite from_number_eq, V in H. discriminate.
  - intros [= <-]. right. now apply generate_raise in G.
Qed.

(** A returned record is what [from_number] returns on its digits. *)
Lemma generate_from_iin_ok_digits (iin : string) (r : CreditCard) :
  generate_from_iin CARD_LENGTH entropy iin = Ok r ->
  exists digits, r = decomposition digits /\ from_number digits = Ok r.
Proof.
  unfold generate_from_iin.
  destruct (negb _ || negb _); [discriminate|].
  destruct (baluhn.generate _) as [c|e]; [|discriminate].
  simpl. intros H.
  destruct (from_number_ok _ _ H) as [_ E].
  eexists. split; [exact E | exact H].
Qed.

End GenerationFacts.

(** * The claims *)

(** C1. For a non-empty string [p] of decimal digits, the check digit
    computed for [p] and appended to [p] passes Luhn verification.
    Hence, for a prefix [iin] of one or two decimal digits, the
    [from_number] call that ends [generate_from_iin] returns a record
    whatever the configured length and the draws; and no call of
    [generate_from_iin] at all raises [InvalidCardNumberError]. *)
Theorem check_digit_verifies
        (p iin : string) (CARD_LENGTH : Z) (entropy : nat -> nat) :
  p <> "" -> all_decimal p = true ->
  1 <= String.length iin <= 2 -> all_decimal iin = true ->
  (exists c, baluhn.generate p = Ok c /\ baluhn.verify (p ++ c) = true) /\
  (exists c r,
      baluhn.generate (digits_without_check_digit CARD_LENGTH entropy iin) = Ok c /\
      from_number (digits_without_check_digit CARD_LENGTH entropy iin ++ c) = Ok r /\
      generate_from_iin CARD_LENGTH entropy iin = Ok r) /\
  (forall any : string,
      generate_from_iin CARD_LENGTH entropy any <> Raise InvalidCardNumberError).
Proof.
  intros Hp Dp Hl Di. repeat split.
  - destruct (generate_verifies p Hp Dp) as (d & _ & G & V).
    now exists (Py.str d).
  - destruct (generate_from_iin_valid CARD_LENGTH entropy iin Hl Di)
      as (d & _ & G & V & E & _).
    exists (Py.str d),
      (decomposition
         (digits_without_check_digit CARD_LENGTH entropy iin ++ Py.str d)).
    repeat split; try assumption.
    now rewrite from_number_eq, V.
  - intros any H.
    apply generate_from_iin_raise in H as [H|H]; discriminate.
Qed.

Lemma check_digit_verifies_witness :
  ("7992739871" <> "" /\ all_decimal "7992739871" = true /\
   1 <= String.length "45" <= 2 /\ all_decimal "45" = true) /\
  (exists c, baluhn.generate "7992739871" = Ok c /\
             baluhn.verify ("7992739871" ++ c) = true).
Proof.
  split.
  - repeat split; try reflexivity; try discriminate; simpl; lia.
  - apply (check_digit_verifies "7992739871" "45" 16 (fun i => i));
      try reflexivity; try discriminate; simpl; lia.
Defined.

(** C2. [from_number] raises [InvalidCardNumberError] exactly when the
    string is not all decimal digits or fails Luhn verification, and it
    raises nothing else; a non-empty decimal string whose weighted sum is
    divisible by 10 is accepted whatever its length. *)
Theorem from_number_rejects_iff (num : string) :
  (from_number num = Raise InvalidCardNumberError
   <-> all_decimal num = false \/ baluhn.verify num = false) /\
  (forall e, from_number num = Raise e -> e = InvalidCardNumberError) /\
  (forall ds,
      num <> "" -> baluhn.digits_of num = Some ds ->
      baluhn.luhn_sum ds mod 10 = 0 ->
      exists r, from_number num = Ok r /\
                number r = Some num /\ is_valid r = true).
Proof.
  repeat split.
  - intros H. right. now apply from_number_raise in H.
  - rewrite from_number_eq. intros [H|H].
    + destruct (baluhn.verify num) eqn:V; [|reflexivity].
      apply verify_true in V as (_ & D & _). congruence.
    + now rewrite H.
  - intros e H. now apply from_number_raise in H.
  - intros ds Hne E S.
    exists (decomposition num). rewrite from_number_eq.
    rewrite (verify_of_digits _ _ E).
    + apply Nat.eqb_eq in S. rewrite S. now repeat split.
    + intros ->. apply digits_of_some in E as [_ L].
      apply length_pos in Hne. simpl in L. lia.
Qed.

Lemma from_number_rejects_iff_witness :
  from_number "12a4" = Raise InvalidCardNumberError /\
  exists r, from_number "00000000000000000000000000" = Ok r /\
            number r = Some "00000000000000000000000000" /\ is_valid r = true.
Proof.
  split.
  - apply (proj1 (from_number_rejects_iff "12a4")). left. reflexivity.
  - apply (proj2 (proj2 (from_number_rejects_iff "00000000000000000000000000"))
             (repeat 0 26));
      [discriminate | reflexivity | reflexivity].
Defined.

(** C3. [from_number "4503495455532271"] returns the record with MII "4",
    IIN "450349", PAN "545553227", check digit "1" and [is_valid] true. *)
Theorem from_number_4503495455532271 :
  from_number "4503495455532271"
  = Ok {| number := Some "4503495455532271";
          major_industry_identifier := Some "4";
          issuer_identification_number := Some "450349";
          personal_account_number := Some "545553227";
          check_digit := Some "1";
          is_valid := true |}.
Proof. vm_compute. reflexivity. Qed.

(** C4, as stated, fails: [from_number "0"] returns a valid record whose
    fields recompose to "00", not to its digits "0", and whose digits
    have length 1, not 16. *)
Lemma valid_record_invariant_fails :
  let r := {| number := Some "0";
              major_industry_identifier := Some "0";
              issuer_identification_number := Some "0";
              personal_account_number := Some "";
              check_digit := Some "0";
              is_valid := true |} in
  from_number "0" = Ok r /\ is_valid r = true /\
  recomposed r = Some "00" /\ recomposed r <> number r /\
  option_map String.length (number r) <> Some 16.
Proof.
  cbv zeta. repeat split; try reflexivity; vm_compute; discriminate.
Qed.

(** C4, amended.  A record returned by [generate_from_iin] under a
    configured length of at least 7 is valid, its fields recompose to its
    digits, and its digits have the configured length.  A record returned
    by [from_number] on a string of at least 7 characters is valid and its
    fields recompose to that string; its length is not constrained. *)
Theorem valid_record_invariant
        (CARD_LENGTH : Z) (entropy : nat -> nat) (iin : string)
        (r : CreditCard) (num : string) (r' : CreditCard) :
  (7 <= CARD_LENGTH)%Z ->
  generate_from_iin CARD_LENGTH entropy iin = Ok r ->
  7 <= String.length num ->
  from_number num = Ok r' ->
  (is_valid r = true /\
   exists digits, number r = Some digits /\ recomposed r = Some digits /\
                  Py.len digits = CARD_LENGTH) /\
  (is_valid r' = true /\ number r' = Some num /\ recomposed r' = Some num).
Proof.
  intros HL G Hn F. split.
  - destruct (generate_from_iin_ok_inv _ _ _ _ G) as [Hl D].
    destruct (generate_from_iin_valid CARD_LENGTH entropy iin Hl D)
      as (d & _ & _ & _ & E & Len).
    rewrite E in G. injection G as <-.
    assert (Len' : Py.len (digits_without_check_digit CARD_LENGTH entropy iin
                           ++ Py.str d) = CARD_LENGTH).
    { unfold Py.len in *. lia. }
    split; [reflexivity|]. eexists. split; [reflexivity|]. split; [|exact Len'].
    apply recomposed_decomposition. unfold Py.len in *. lia.
  - apply from_number_ok in F as [_ ->].
    split; [reflexivity|]. split; [reflexivity|].
    now apply recomposed_decomposition.
Qed.

Lemma valid_record_invariant_witness :
  ((7 <= 16)%Z /\
   generate_from_iin 16 (fun i => i) "45" = Ok (decomposition "4501234567890125") /\
   7 <= String.length "79927398713" /\
   from_number "79927398713" = Ok (decomposition "79927398713")) /\
  recomposed (decomposition "4501234567890125") = Some "4501234567890125" /\
  recomposed (decomposition "79927398713") = Some "79927398713".
Proof.
  assert (H1 : (7 <= 16)%Z) by lia.
  assert (H2 : generate_from_iin 16 (fun i => i) "45"
               = Ok (decomposition "4501234567890125")) by (vm_compute; reflexivity).
  assert (H3 : 7 <= String.length "79927398713") by (simpl; lia).
  assert (H4 : from_number "79927398713" = Ok (decomposition "79927398713"))
    by (vm_compute; reflexivity).
  split; [now repeat split|].
  destruct (valid_record_invariant 16 (fun i => i) "45" _ _ _ H1 H2 H3 H4)
    as [(_ & digits & Hd & Hr & _) (_ & _ & Hr')].
  split; [|exact Hr'].
  injection Hd as <-. exact Hr.
Defined.

(** C5. Whatever the draws, [generate_from_iin "45"] under the length 16
    returns a valid record whose digits start with "45", are 16 long and
    pass Luhn verification. *)
Theorem generate_from_45 (entropy : nat -> nat) :
  exists r digits,
    generate_from_iin 16 entropy "45" = Ok r /\
    number r = Some digits /\ is_valid r = true /\
    prefix "45" digits = true /\
    String.length digits = 16 /\
    baluhn.verify digits = true.
Proof.
  destruct (generate_from_iin_valid 16 entropy "45")
    as (d & _ & _ & V & E & Len); [simpl; lia | reflexivity |].
  eexists. eexists. split; [exact E|].
  split; [reflexivity|]. split; [reflexivity|].
  split; [|split; [exact Len | exact V]].
  unfold digits_without_check_digit.
  rewrite append_assoc. apply prefix_append.
Qed.

(** C6, evaluated where the code departs from it.  The guard of
    [generate_from_iin] asks [str.isdigit], which holds of the superscript
    digit U+00B2.  That prefix has length 1 and holds a character that is
    no decimal digit, yet the call does not raise [InvalidIinError]: it
    goes on to the check-digit primitive and breaks its contract there.
    The prefixes "", "123" and "a" are rejected by the guard. *)
Theorem generate_from_iin_superscript (CARD_LENGTH : Z) (entropy : nat -> nat) :
  String.length superscript_two = 1 /\
  all_decimal superscript_two = false /\
  Py.isdigit superscript_two = true /\
  generate_from_iin CARD_LENGTH entropy superscript_two = Raise ProgrammerError /\
  generate_from_iin CARD_LENGTH entropy superscript_two <> Raise InvalidIinError /\
  generate_from_iin CARD_LENGTH entropy "" = Raise InvalidIinError /\
  generate_from_iin CARD_LENGTH entropy "123" = Raise InvalidIinError /\
  generate_from_iin CARD_LENGTH entropy "a" = Raise InvalidIinError.
Proof.
  assert (E : generate_from_iin CARD_LENGTH entropy superscript_two
              = Raise ProgrammerError).
  { unfold generate_from_iin.
    change (negb ((0 <? Py.len superscript_two)%Z
                  && (Py.len superscript_two <? 3)%Z)
            || negb (Py.isdigit superscript_two)) with false.
    cbv iota. unfold digits_without_check_digit, baluhn.generate.
    unfold superscript_two at 1. reflexivity. }
  repeat split; try reflexivity; try exact E.
  rewrite E. discriminate.
Qed.

(** C7. A record returned by [generate_from_iin] carries digits on which
    [from_number] returns that same record, field for field. *)
Theorem generate_then_from_number
        (CARD_LENGTH : Z) (entropy : nat -> nat) (iin : string) (r : CreditCard) :
  generate_from_iin CARD_LENGTH entropy iin = Ok r ->
  exists digits, number r = Some digits /\ from_number digits = Ok r.
Proof.
  intros H.
  destruct (generate_from_iin_ok_digits _ _ _ _ H) as (digits & E & F).
  exists digits. split; [now rewrite E | exact F].
Qed.

Lemma generate_then_from_number_witness :
  generate_from_iin 16 (fun i => 7 * i + 3) "45"
  = Ok (decomposition "4530741852963073") /\
  exists digits,
    number (decomposition "4530741852963073") = Some digits /\
    from_number digits = Ok (decomposition "4530741852963073").
Proof.
  assert (H : generate_from_iin 16 (fun i => 7 * i + 3) "45"
              = Ok (decomposition "4530741852963073"))
    by (vm_compute; reflexivity).
  split; [exact H|].
  exact (generate_then_from_number 16 (fun i => 7 * i + 3) "45" _ H).
Defined.

(** C8. [with_invalid_number s] carries [s] as its number, is not valid,
    and has its four structural fields at [None]; neither [from_number]
    nor [generate_from_iin] ever returns such a record. *)
Theorem with_invalid_number_placeholder (s : string) :
  number (with_invalid_number s) = Some s /\
  is_valid (with_invalid_number s) = false /\
  major_industry_identifier (with_invalid_number s) = None /\
  issuer_identification_number (with_invalid_number s) = None /\
  personal_account_number (with_invalid_number s) = None /\
  check_digit (with_invalid_number s) = None /\
  (forall num, from_number num <> Ok (with_invalid_number s)) /\
  (forall CARD_LENGTH entropy iin,
      generate_from_iin CARD_LENGTH entropy iin <> Ok (with_invalid_number s)).
Proof.
  assert (F : forall num, from_number num <> Ok (with_invalid_number s)).
  { intros num H. apply from_number_ok in H as [_ H]. discriminate. }
  repeat split; try reflexivity; [exact F|].
  intros L e iin H.
  destruct (generate_from_iin_ok_digits _ _ _ _ H) as (digits & _ & H').
  exact (F digits H').
Qed.

(** C9, as stated, fails at length 6: "000000" is a decimal string of 6
    characters whose weighted sum is 0, [from_number] accepts it, and the
    IIN of the record is the whole string, of 6 characters, not fewer. *)
Lemma from_number_short_iin_not_shorter :
  1 <= String.length "000000" <= 6 /\
  baluhn.digits_of "000000" = Some [0; 0; 0; 0; 0; 0] /\
  baluhn.luhn_sum [0; 0; 0; 0; 0; 0] mod 10 = 0 /\
  from_number "000000"
  = Ok {| number := Some "000000";
          major_industry_identifier := Some "0";
          issuer_identification_number := Some "000000";
          personal_account_number := Some "";
          check_digit := Some "0";
          is_valid := true |} /\
  ~ String.length "000000" < 6.
Proof.
  repeat split; try reflexivity; simpl; lia.
Qed.

(** C9, amended.  A decimal string of 1 to 6 characters whose weighted sum
    is divisible by 10 is accepted by [from_number]: the record is valid,
    its IIN is the whole string (at most 6 characters), its PAN is empty,
    and its check digit is the last character of the string, a position
    the IIN covers as well. *)
Theorem from_number_short (s : string) (ds : list nat) :
  1 <= String.length s <= 6 ->
  baluhn.digits_of s = Some ds ->
  baluhn.luhn_sum ds mod 10 = 0 ->
  exists p c iin,
    s = p ++ String c "" /\
    from_number s
    = Ok {| number := Some s;
            major_industry_identifier := Some (substring 0 1 s);
            issuer_identification_number := Some iin;
            personal_account_number := Some "";
            check_digit := Some (String c "");
            is_valid := true |} /\
    iin = s /\ String.length iin <= 6.
Proof.
  intros Hl E S.
  assert (Hne : s <> "") by (intros ->; simpl in Hl; lia).
  destruct (string_snoc s Hne) as (p & c & Es).
  exists p, c, s. split; [exact Es|].
  split; [|split; [reflexivity | lia]].
  rewrite from_number_eq, (verify_of_digits _ _ E).
  - apply Nat.eqb_eq in S. rewrite S. unfold decomposition.
    change 6%Z with (Z.of_nat 6).
    rewrite slice_upto, slice_from_to_last.
    rewrite (Nat.min_r 6 (String.length s)) by lia.
    replace (String.length s - 1 - String.length s) with 0 by lia.
    rewrite substring_none, (substring_whole (String.length s) s) by lia.
    do 2 f_equal.
    rewrite Es at 1 2. rewrite length_append. simpl String.length.
    replace (String.length p + 1 - 1) with (String.length p) by lia.
    now rewrite substring_last.
  - intros ->. apply digits_of_some in E as [_ L]. simpl in L. lia.
Qed.

Lemma from_number_short_witness :
  (1 <= String.length "18" <= 6 /\
   baluhn.digits_of "18" = Some [1; 8] /\
   baluhn.luhn_sum [1; 8] mod 10 = 0) /\
  exists p c iin,
    "18" = p ++ String c "" /\
    from_number "18"
    = Ok {| number := Some "18";
            major_industry_identifier := Some (substring 0 1 "18");
            issuer_identification_number := Some iin;
            personal_account_number := Some "";
            check_digit := Some (String c "");
            is_valid := true |} /\
    iin = "18" /\ String.length iin <= 6.
Proof.
  split.
  - repeat split; try reflexivity; simpl; lia.
  - apply (from_number_short "18" [1; 8]);
      [simpl; lia | reflexivity | reflexivity].
Defined.

(** C10. On a 16-character string that [from_number] accepts (a decimal
    string), the PAN of the record is [digits[6:15]], 9 characters long,
    kept whole although the field is declared with [max_length=4]. *)
Theorem personal_account_number_16 (num : string) (r : CreditCard) :
  String.length num = 16 ->
  from_number num = Ok r ->
  all_decimal num = true /\
  personal_account_number r = Some (Py.slice num (Some 6%Z) (Some 15%Z)) /\
  Py.slice num (Some 6%Z) (Some 15%Z) = substring 6 9 num /\
  String.length (substring 6 9 num) = 9 /\
  personal_account_number_max_length = 4.
Proof.
  intros Hl F. apply from_number_ok in F as [V ->].
  apply verify_true in V as (_ & D & _).
  assert (E15 : Py.slice num (Some 6%Z) (Some 15%Z) = substring 6 9 num)
    by (unfold Py.slice, Py.len; rewrite Hl; reflexivity).
  assert (E1 : Py.slice num (Some 6%Z) (Some (-1)%Z) = substring 6 9 num)
    by (unfold Py.slice, Py.len; rewrite Hl; reflexivity).
  repeat split; try assumption.
  - simpl. now rewrite E1, E15.
  - apply length_substring. lia.
Qed.

Lemma personal_account_number_16_witness :
  (String.length "4503495455532271" = 16 /\
   from_number "4503495455532271" = Ok (decomposition "4503495455532271")) /\
  personal_account_number (decomposition "4503495455532271")
  = Some (Py.slice "4503495455532271" (Some 6%Z) (Some 15%Z)).
Proof.
  assert (H : from_number "4503495455532271"
              = Ok (decomposition "4503495455532271"))
    by (vm_compute; reflexivity).
  split; [split; [reflexivity | exact H]|].
  exact (proj1 (proj2 (personal_account_number_16
                         "4503495455532271" _ eq_refl H))).
Defined.

(** * Beyond the claims: decomposition under any [verify] *)

Section DecompositionFacts.

Lemma isdigit_nonempty (s : string) : Py.isdigit s = true -> s <> "".
Proof. destruct s; [discriminate | intros _; discriminate]. Qed.

Lemma length_substring_min (n m : nat) (s : string) :
  String.length (substring n m s) = Nat.min m (String.length s - n).
Proof.
  revert n m; induction s as [|c s IH]; intros [|n] [|m]; simpl;
    try reflexivity.
  - now rewrite (IH 0 m), Nat.sub_0_r.
  - now rewrite (IH n 0).
  - apply (IH n (S m)).
Qed.

Lemma all_chars_substring (p : ascii -> bool) (n m : nat) (s : string) :
  Py.all_chars p s = true -> Py.all_chars p (substring n m s) = true.
Proof.
  revert n m; induction s as [|c s IH]; intros n m H.
  - destruct n, m; reflexivity.
  - simpl in H. apply andb_prop in H as [Hc Hs].
    destruct n as [|n]; simpl.
    + destruct m as [|m]; simpl; [reflexivity|].
      now rewrite Hc, (IH 0 m Hs).
    + now apply IH.
Qed.

Lemma all_chars_slice (p : ascii -> bool) (s : string) (a b : option Z) :
  Py.all_chars p s = true -> Py.all_chars p (Py.slice s a b) = true.
Proof. intros H. unfold Py.slice. now apply all_chars_substring. Qed.

Lemma isdigit_all_chars (s : string) :
  Py.isdigit s = true -> Py.all_chars Py.is_digit_char s = true.
Proof. destruct s; [discriminate | trivial]. Qed.

Lemma from_number_with_eq (verify : string -> bool) (s : string) :
  from_number_with verify s
  = if Py.isdigit s && verify s then Ok (decomposition s)
    else Raise InvalidCardNumberError.
Proof.
  unfold from_number_with.
  destruct (Py.isdigit s) eqn:D; [|reflexivity].
  destruct (verify s); [|reflexivity]. simpl.
  apply isdigit_nonempty in D.
  now rewrite (getitem_first _ D), (getitem_last _ D).
Qed.

Lemma slice_first (s : string) :
  s <> "" -> Py.slice s None (Some 1%Z) = substring 0 1 s.
Proof.
  intros H. apply length_pos in H.
  change 1%Z with (Z.of_nat 1). rewrite slice_upto.
  now rewrite Nat.min_l by lia.
Qed.

Lemma slice_last (s : string) :
  s <> "" ->
  Py.slice s (Some (-1)%Z) None = substring (String.length s - 1) 1 s.
Proof.
  intros H. apply length_pos in H.
  unfold Py.slice, Py.clamp, Py.len.
  change (-1 <? 0)%Z with true. cbv iota.
  f_equal; lia.
Qed.

End DecompositionFacts.

(** X1. Whatever function stands for the imported [verify] (the real one
    or a mock), [from_number] accepts exactly the strings that pass
    [isdigit] and that function, returns for them the record of the
    positional slices, and raises [InvalidCardNumberError] on all others:
    the two subscripts [number[0]] and [number[-1]] never raise. *)
Theorem from_number_any_verify (verify : string -> bool) (num : string) :
  from_number num = from_number_with baluhn.verify num /\
  ((Py.isdigit num = true /\ verify num = true /\
    from_number_with verify num
    = Ok {| number := Some num;
            major_industry_identifier := Some (Py.slice num None (Some 1%Z));
            issuer_identification_number := Some (Py.slice num None (Some 6%Z));
            personal_account_number := Some (Py.slice num (Some 6%Z) (Some (-1)%Z));
            check_digit := Some (Py.slice num (Some (-1)%Z) None);
            is_valid := true |}) \/
   ((Py.isdigit num = false \/ verify num = false) /\
    from_number_with verify num = Raise InvalidCardNumberError)).
Proof.
  split; [reflexivity|].
  rewrite from_number_with_eq.
  destruct (Py.isdigit num) eqn:D; [|right; split; [now left | reflexivity]].
  destruct (verify num) eqn:V; [|right; split; [now right | reflexivity]].
  left. repeat split. simpl. unfold decomposition.
  apply isdigit_nonempty in D.
  now rewrite (slice_first _ D), (slice_last _ D).
Qed.

(** X2. The field lengths of an accepted record, whatever [verify] is:
    MII and check digit have one character, the IIN the first six or
    fewer, the PAN what lies between position 6 and the last character.
    So IIN, MII and check digit fit their declared [max_length], while the
    PAN exceeds its own from 12 characters on and the number from 21 on. *)
Theorem accepted_field_lengths
        (verify : string -> bool) (num : string) (r : CreditCard) :
  from_number_with verify num = Ok r ->
  let n := String.length num in
  1 <= n /\
  option_map String.length (major_industry_identifier r) = Some 1 /\
  option_map String.length (issuer_identification_number r) = Some (Nat.min 6 n) /\
  option_map String.length (personal_account_number r) = Some (n - 7) /\
  option_map String.length (check_digit r) = Some 1 /\
  Nat.min 6 n <= issuer_identification_number_max_length /\
  (n - 7 <= personal_account_number_max_length <-> n <= 11) /\
  (n <= number_max_length <-> n <= 20).
Proof.
  rewrite from_number_with_eq.
  destruct (Py.isdigit num) eqn:D; [|discriminate].
  destruct (verify num); [|discriminate].
  intros [= <-]. cbv zeta.
  apply isdigit_nonempty, length_pos in D.
  unfold decomposition.
  cbn [major_industry_identifier issuer_identification_number
       personal_account_number check_digit option_map].
  change 6%Z with (Z.of_nat 6).
  rewrite slice_upto, slice_from_to_last, !length_substring_min.
  unfold issuer_identification_number_max_length,
    personal_account_number_max_length, number_max_length.
  repeat split; try (f_equal; lia); lia.
Qed.

Lemma accepted_field_lengths_witness :
  from_number_with (fun _ => true) "1234567890123456"
  = Ok (decomposition "1234567890123456") /\
  option_map String.length
    (personal_account_number (decomposition "1234567890123456")) = Some 9.
Proof.
  assert (H : from_number_with (fun _ => true) "1234567890123456"
              = Ok (decomposition "1234567890123456"))
    by (vm_compute; reflexivity).
  split; [exact H|].
  exact (proj1 (proj2 (proj2 (proj2
           (accepted_field_lengths (fun _ => true) "1234567890123456" _ H))))).
Defined.

(** X3. Every field of a record returned by [from_number] is a string of
    the characters '0'..'9' only. *)
Theorem accepted_fields_decimal (num : string) (r : CreditCard) (s : string) :
  from_number num = Ok r ->
  In (Some s) [ number r; major_industry_identifier r;
                issuer_identification_number r; personal_account_number r;
                check_digit r ] ->
  all_decimal s = true.
Proof.
  intros F H. apply from_number_ok in F as [V ->].
  apply verify_true in V as (_ & D & _).
  unfold all_decimal in *. simpl in H.
  destruct H as [H|[H|[H|[H|[H|[]]]]]]; injection H as <-;
    try assumption;
    try apply all_chars_slice; try apply all_chars_substring; assumption.
Qed.

Lemma accepted_fields_decimal_witness :
  from_number "79927398713" = Ok (decomposition "79927398713") /\
  all_decimal "9871" = true.
Proof.
  assert (H : from_number "79927398713" = Ok (decomposition "79927398713"))
    by (vm_compute; reflexivity).
  split; [exact H|].
  apply (accepted_fields_decimal "79927398713" _ "9871" H).
  right. right. right. left. reflexivity.
Defined.

(** X4. The kind of outcome of [generate_from_iin] is decided by the
    prefix alone, not by the configured length or the draws: a record for
    one or two characters '0'..'9'; [InvalidIinError] when the length is
    not 1 or 2 or [isdigit] fails; the contract violation of the
    check-digit primitive for a prefix of 1 or 2 characters that passes
    [isdigit] without being decimal; and nothing else. *)
Theorem generate_from_iin_outcome
        (CARD_LENGTH : Z) (entropy : nat -> nat) (iin : string) :
  ((exists r, generate_from_iin CARD_LENGTH entropy iin = Ok r)
   <-> 1 <= String.length iin <= 2 /\ all_decimal iin = true) /\
  (generate_from_iin CARD_LENGTH entropy iin = Raise InvalidIinError
   <-> ~ 1 <= String.length iin <= 2 \/ Py.isdigit iin = false) /\
  (generate_from_iin CARD_LENGTH entropy iin = Raise ProgrammerError
   <-> 1 <= String.length iin <= 2 /\ Py.isdigit iin = true /\
       all_decimal iin = false) /\
  (forall e, generate_from_iin CARD_LENGTH entropy iin = Raise e ->
             e = InvalidIinError \/ e = ProgrammerError).
Proof.
  assert (G : generate_from_iin CARD_LENGTH entropy iin = Raise InvalidIinError
              <-> ~ 1 <= String.length iin <= 2 \/ Py.isdigit iin = false).
  { rewrite generate_from_iin_guard, orb_true_iff, !negb_true_iff.
    rewrite <- not_true_iff_false, iin_length_guard. tauto. }
  assert (K : (exists r, generate_from_iin CARD_LENGTH entropy iin = Ok r)
              <-> 1 <= String.length iin <= 2 /\ all_decimal iin = true).
  { split.
    - intros [r H]. now apply generate_from_iin_ok_inv in H.
    - intros [Hl D].
      destruct (generate_from_iin_valid CARD_LENGTH entropy iin Hl D)
        as (d & _ & _ & _ & E & _).
      eexists; exact E. }
  split; [exact K|]. split; [exact G|]. split.
  - split.
    + intros H.
      destruct (Py.isdigit iin) eqn:I.
      * assert (L : 1 <= String.length iin <= 2).
        { destruct (le_dec 1 (String.length iin));
            destruct (le_dec (String.length iin) 2); try lia;
              exfalso; assert (X : generate_from_iin CARD_LENGTH entropy iin
                                   = Raise InvalidIinError)
                by (apply G; left; lia); congruence. }
        repeat split; try lia.
        destruct (all_decimal iin) eqn:D; [|reflexivity].
        destruct (proj2 K (conj L eq_refl)) as [r E]. congruence.
      * assert (X : generate_from_iin CARD_LENGTH entropy iin
                    = Raise InvalidIinError) by (apply G; now right).
        congruence.
    + intros (L & I & D).
      destruct (generate_from_iin CARD_LENGTH entropy iin) as [r|e] eqn:E.
      * destruct (proj1 K (ex_intro _ r eq_refl)) as [_ X]. congruence.
      * destruct (generate_from_iin_raise _ _ _ _ E) as [->| ->];
          [|reflexivity].
        destruct (proj1 G eq_refl) as [X|X]; [tauto | congruence].
  - intros e. apply generate_from_iin_raise.
Qed.

Lemma generate_from_iin_outcome_witness :
  exists r, generate_from_iin 16 (fun i => i) "7" = Ok r.
Proof.
  apply (proj1 (generate_from_iin_outcome 16 (fun i => i) "7")).
  split; [simpl; lia | reflexivity].
Defined.

(** * Beyond the claims: what [generate_from_iin] produces *)

Section GeneratedNumberFacts.

Lemma prefix_split (a b : string) :
  prefix a b = true -> exists rest, b = a ++ rest.
Proof.
  revert b; induction a as [|x a IH]; intros b H.
  - now exists b.
  - destruct b as [|y b]; simpl in H; [discriminate|].
    destruct (ascii_dec x y) as [->|]; [|discriminate].
    destruct (IH b H) as [rest ->]. now exists rest.
Qed.

Lemma digit_value_inj (c c' : ascii) (d : nat) :
  baluhn.digit_value c = Some d -> baluhn.digit_value c' = Some d -> c = c'.
Proof.
  unfold baluhn.digit_value, Py.is_decimal_char.
  destruct (_ && _) eqn:E; [|discriminate].
  destruct ((48 <=? nat_of_ascii c')%nat && _) eqn:E'; [|discriminate].
  intros [= H] [= H'].
  apply andb_prop in E as [E _], E' as [E' _].
  apply Nat.leb_le in E, E'.
  rewrite <- (ascii_nat_embedding c), <- (ascii_nat_embedding c').
  f_equal. lia.
Qed.

Lemma str_of_digit_value (c : ascii) (d : nat) :
  baluhn.digit_value c = Some d -> Py.str d = String c "".
Proof.
  intros H. destruct (digit_value_some _ _ H) as [_ Hd].
  destruct (str_digit d Hd) as (c' & -> & H').
  now rewrite (digit_value_inj _ _ _ H' H).
Qed.

(** Draws that follow the digits of [mid] spell [mid]. *)
Lemma join_draws_of_digits (mid : string) :
  forall (dm : list nat) (off : nat) (e : nat -> nat),
    baluhn.digits_of mid = Some dm ->
    (forall i, i < List.length dm -> e (off + i) = nth i dm 0) ->
    Py.join (map (fun i => Py.str (Py.randint 0 9 (e i)))
                 (seq off (List.length dm))) = mid.
Proof.
  induction mid as [|c mid IH]; intros dm off e H He; simpl in H.
  - injection H as <-. reflexivity.
  - destruct (baluhn.digit_value c) as [d|] eqn:Ec; [|discriminate].
    destruct (baluhn.digits_of mid) as [dm'|] eqn:Em; [|discriminate].
    injection H as <-. simpl.
    pose proof (He 0 ltac:(simpl; lia)) as H0.
    rewrite Nat.add_0_r in H0. simpl in H0. rewrite H0.
    destruct (digit_value_some _ _ Ec) as [_ Hd].
    rewrite randint_reaches by lia.
    rewrite (str_of_digit_value _ _ Ec). simpl. f_equal.
    apply (IH dm' (S off) e eq_refl).
    intros i Hi. specialize (He (S i) ltac:(simpl; lia)).
    rewrite Nat.add_succ_r in He. exact He.
Qed.

Lemma residue_unique (a b w : nat) :
  a < 10 -> b < 10 -> (a + w) mod 10 = 0 -> (b + w) mod 10 = 0 -> a = b.
Proof.
  intros Ha Hb Ea Eb.
  pose proof (Nat.div_mod_eq (a + w) 10) as Da.
  pose proof (Nat.div_mod_eq (b + w) 10) as Db.
  rewrite Ea in Da. rewrite Eb in Db. lia.
Qed.

(** At most one character closes a decimal string into one that verifies. *)
Lemma check_digit_unique (p : string) (c1 c2 : ascii) :
  baluhn.verify (p ++ String c1 "") = true ->
  baluhn.verify (p ++ String c2 "") = true ->
  c1 = c2.
Proof.
  intros V1 V2.
  apply verify_true in V1 as (_ & D1 & ds1 & E1 & S1).
  apply verify_true in V2 as (_ & D2 & ds2 & E2 & S2).
  unfold all_decimal in D1, D2. rewrite all_chars_app in D1, D2.
  apply andb_prop in D1 as [Dp D1], D2 as [_ D2].
  destruct (digits_of_decimal p Dp) as (ds & E & _).
  simpl in D1, D2. rewrite andb_true_r in D1, D2.
  assert (X1 : baluhn.digit_value c1 = Some (nat_of_ascii c1 - 48))
    by (unfold baluhn.digit_value; now rewrite D1).
  assert (X2 : baluhn.digit_value c2 = Some (nat_of_ascii c2 - 48))
    by (unfold baluhn.digit_value; now rewrite D2).
  assert (F1 : baluhn.digits_of (String c1 "") = Some [nat_of_ascii c1 - 48])
    by (simpl; now rewrite X1).
  assert (F2 : baluhn.digits_of (String c2 "") = Some [nat_of_ascii c2 - 48])
    by (simpl; now rewrite X2).
  rewrite (digits_of_app _ _ _ _ E F1) in E1. injection E1 as <-.
  rewrite (digits_of_app _ _ _ _ E F2) in E2. injection E2 as <-.
  rewrite luhn_sum_snoc in S1, S2.
  apply (digit_value_inj _ _ (nat_of_ascii c1 - 48) X1).
  rewrite X2. f_equal.
  apply (residue_unique _ _ (baluhn.weighted_sum true (rev ds)));
    try assumption.
  - now destruct (digit_value_some _ _ X2).
  - now destruct (digit_value_some _ _ X1).
Qed.

Lemma no_middle_digits (CARD_LENGTH : Z) (entropy : nat -> nat) (iin : string) :
  (CARD_LENGTH <= Py.len iin + 1)%Z ->
  digits_without_check_digit CARD_LENGTH entropy iin = iin.
Proof.
  intros H. unfold digits_without_check_digit, middle_digits, Py.range.
  replace (Z.to_nat (CARD_LENGTH - Py.len iin - 1)) with 0 by lia.
  simpl. apply append_empty_r.
Qed.

End GeneratedNumberFacts.

(** X5. For a prefix of one or two characters '0'..'9', the number that
    [generate_from_iin] returns is a decimal string that starts with the
    prefix and whose length is the larger of the configured length and
    the length of the prefix plus one. *)
Theorem generated_number_length
        (CARD_LENGTH : Z) (entropy : nat -> nat) (iin : string) :
  1 <= String.length iin <= 2 -> all_decimal iin = true ->
  exists digits,
    generate_from_iin CARD_LENGTH entropy iin = Ok (decomposition digits) /\
    prefix iin digits = true /\
    all_decimal digits = true /\
    Py.len digits = Z.max CARD_LENGTH (Py.len iin + 1).
Proof.
  intros Hl D.
  destruct (generate_from_iin_valid CARD_LENGTH entropy iin Hl D)
    as (d & _ & _ & V & E & Len).
  eexists. split; [exact E|]. split; [|split].
  - unfold digits_without_check_digit. rewrite append_assoc.
    apply prefix_append.
  - now apply verify_true in V as (_ & V & _).
  - unfold Py.len in *. lia.
Qed.

Lemma generated_number_length_witness :
  (1 <= String.length "45" <= 2 /\ all_decimal "45" = true) /\
  exists digits,
    generate_from_iin (-3) (fun i => i) "45" = Ok (decomposition digits) /\
    prefix "45" digits = true /\
    all_decimal digits = true /\
    Py.len digits = Z.max (-3) (Py.len "45" + 1).
Proof.
  split; [split; [simpl; lia | reflexivity]|].
  apply (generated_number_length (-3) (fun i => i) "45");
    [simpl; lia | reflexivity].
Defined.

(** X6. When the configured length leaves no room for middle digits
    (it is at most the length of the prefix plus one, zero and negative
    values included), no draw is made and nothing is raised: the result is
    the prefix followed by its one-character check digit, the same for
    every entropy source, so its length is that of the prefix plus one
    even when the configured length is smaller. *)
Theorem generate_without_middle_digits (CARD_LENGTH : Z) (iin : string) :
  1 <= String.length iin <= 2 -> all_decimal iin = true ->
  (CARD_LENGTH <= Py.len iin + 1)%Z ->
  exists c,
    baluhn.generate iin = Ok c /\
    String.length c = 1 /\
    forall entropy,
      generate_from_iin CARD_LENGTH entropy iin = Ok (decomposition (iin ++ c)).
Proof.
  intros Hl D HL.
  destruct (generate_from_iin_valid CARD_LENGTH (fun _ => 0) iin Hl D)
    as (d & Hd & G & _).
  rewrite no_middle_digits in G by exact HL.
  exists (Py.str d). split; [exact G|].
  split; [destruct (str_digit d Hd) as (c' & -> & _); reflexivity|].
  intros entropy.
  destruct (generate_from_iin_valid CARD_LENGTH entropy iin Hl D)
    as (d' & _ & G' & _ & E & _).
  rewrite no_middle_digits in G', E by exact HL.
  rewrite G in G'. injection G' as G'. now rewrite G'.
Qed.

Lemma generate_without_middle_digits_witness :
  (1 <= String.length "45" <= 2 /\ all_decimal "45" = true /\
   (0 <= Py.len "45" + 1)%Z) /\
  exists c,
    baluhn.generate "45" = Ok c /\
    String.length c = 1 /\
    forall entropy,
      generate_from_iin 0 entropy "45" = Ok (decomposition ("45" ++ c)).
Proof.
  split; [repeat split; try reflexivity; simpl; lia|].
  apply (generate_without_middle_digits 0 "45");
    [simpl; lia | reflexivity | simpl; lia].
Defined.

(** X7. Generation reaches every candidate: a number of the configured
    length that [from_number] accepts and that starts with a prefix of one
    or two characters is returned by [generate_from_iin] on that prefix
    for some draws. *)
Theorem every_accepted_number_generated
        (CARD_LENGTH : Z) (iin digits : string) (r : CreditCard) :
  1 <= String.length iin <= 2 ->
  prefix iin digits = true ->
  String.length iin < String.length digits ->
  Py.len digits = CARD_LENGTH ->
  from_number digits = Ok r ->
  exists entropy, generate_from_iin CARD_LENGTH entropy iin = Ok r.
Proof.
  intros Hl P Hlt HL F.
  apply from_number_ok in F as [V ->].
  destruct (prefix_split _ _ P) as [rest ->].
  rewrite length_append in Hlt.
  destruct (string_snoc rest) as (mid & c & ->).
  { intros ->. simpl in Hlt. lia. }
  pose proof V as V'.
  apply verify_true in V' as (_ & D & _).
  unfold all_decimal in D. rewrite !all_chars_app in D.
  apply andb_prop in D as [Di D]. apply andb_prop in D as [Dm _].
  destruct (digits_of_decimal mid Dm) as (dm & Em & Lm).
  exists (fun i => nth i dm 0).
  assert (B : digits_without_check_digit CARD_LENGTH (fun i => nth i dm 0) iin
              = iin ++ mid).
  { unfold digits_without_check_digit, middle_digits, Py.range. f_equal.
    replace (Z.to_nat (CARD_LENGTH - Py.len iin - 1)) with (List.length dm).
    - now apply join_draws_of_digits.
    - rewrite <- HL. unfold Py.len. rewrite !length_append. simpl. lia. }
  destruct (generate_from_iin_valid CARD_LENGTH (fun i => nth i dm 0) iin Hl Di)
    as (d & Hd & _ & V2 & E & _).
  rewrite B in V2, E.
  destruct (str_digit d Hd) as (c' & Ec & _). rewrite Ec in V2, E.
  rewrite <- append_assoc in V.
  rewrite (check_digit_unique _ _ _ V2 V) in E.
  now rewrite <- append_assoc.
Qed.

Lemma every_accepted_number_generated_witness :
  (1 <= String.length "45" <= 2 /\
   prefix "45" "4503495455532271" = true /\
   String.length "45" < String.length "4503495455532271" /\
   Py.len "4503495455532271" = 16%Z /\
   from_number "4503495455532271" = Ok (decomposition "4503495455532271")) /\
  exists entropy,
    generate_from_iin 16 entropy "45" = Ok (decomposition "4503495455532271").
Proof.
  assert (F : from_number "4503495455532271"
              = Ok (decomposition "4503495455532271"))
    by (vm_compute; reflexivity).
  split; [repeat split; try reflexivity; try exact F; simpl; lia|].
  apply (every_accepted_number_generated 16 "45" "4503495455532271");
    [simpl; lia | reflexivity | simpl; lia | reflexivity | exact F].
Defined.

(** * Beyond the claims: serialization and the views *)

Section SerializationFacts.

Variable NUMBER : string.

Lemma of_items_iter (c : CreditCard) :
  PyDict.of_items (CreditCard_iter c)
  = [ ("number", opt_value (number c));
      ("major_industry_identifier", opt_value (major_industry_identifier c));
      ("issuer_identification_number", opt_value (issuer_identification_number c));
      ("personal_account_number", opt_value (personal_account_number c));
      ("check_digit", opt_value (check_digit c));
      ("is_valid", VBool (is_valid c)) ].
Proof. reflexivity. Qed.

Lemma get_remove_other (k k0 : string) (d : dict) :
  k <> k0 -> PyDict.get k (PyDict.remove k0 d) = PyDict.get k d.
Proof.
  intros H. induction d as [|[k' v] d IH]; simpl; [reflexivity|].
  destruct (String.eqb_spec k' k0) as [->|N]; simpl.
  - destruct (String.eqb_spec k0 k) as [E|_]; [congruence | reflexivity].
  - now rewrite IH.
Qed.

Lemma get_none_not_in (k : string) (d : dict) :
  PyDict.get k d = None <-> ~ In k (PyDict.keys d).
Proof.
  induction d as [|[k' v] d IH]; simpl; [tauto|].
  destruct (String.eqb_spec k' k) as [->|N].
  - split; [discriminate | tauto].
  - rewrite IH. tauto.
Qed.

Lemma get_remove_same (k : string) (d : dict) :
  NoDup (PyDict.keys d) -> PyDict.get k (PyDict.remove k d) = None.
Proof.
  induction d as [|[k' v] d IH]; simpl; intros H; [reflexivity|].
  inversion H as [|? ? Hn Hd]; subst.
  destruct (String.eqb_spec k' k) as [->|N]; simpl.
  - now apply get_none_not_in.
  - destruct (String.eqb_spec k' k) as [E|_]; [congruence | now apply IH].
Qed.

Lemma keys_of_items_iter (c : CreditCard) :
  PyDict.keys (PyDict.of_items (CreditCard_iter c)) = field_names.
Proof. reflexivity. Qed.

Lemma field_names_nodup : NoDup field_names.
Proof.
  unfold field_names.
  repeat (constructor; [simpl; intuition discriminate|]). constructor.
Qed.

Lemma serialized_without_number_eq (c : CreditCard) :
  serialized NUMBER c false
  = match PyDict.get NUMBER (PyDict.of_items (CreditCard_iter c)) with
    | Some _ => Return (PyDict.remove NUMBER (PyDict.of_items (CreditCard_iter c)))
    | None => Throw KeyError
    end.
Proof.
  unfold serialized, PyDict.delitem. simpl negb. cbv iota.
  now destruct (PyDict.get NUMBER _).
Qed.

Lemma serialized_without_number_ok (c : CreditCard) :
  In NUMBER field_names ->
  serialized NUMBER c false
  = Return (PyDict.remove NUMBER (PyDict.of_items (CreditCard_iter c))).
Proof.
  intros H. rewrite serialized_without_number_eq.
  destruct (PyDict.get NUMBER _) eqn:E; [reflexivity|].
  apply get_none_not_in in E. now rewrite keys_of_items_iter in E.
Qed.

End SerializationFacts.

(** [serialized(with_number=True)] returns the six declared fields in
    declaration order, without the inherited [_state] and [id]. *)
Lemma serialized_with_number (NUMBER : string) (c : CreditCard) :
  serialized NUMBER c true
  = Return
      [ ("number", opt_value (number c));
        ("major_industry_identifier", opt_value (major_industry_identifier c));
        ("issuer_identification_number",
         opt_value (issuer_identification_number c));
        ("personal_account_number", opt_value (personal_account_number c));
        ("check_digit", opt_value (check_digit c));
        ("is_valid", VBool (is_valid c)) ].
Proof. reflexivity. Qed.

(** X8. [serialized()] without the number deletes the key [NUMBER]: it
    raises [KeyError] exactly when [NUMBER] is not the name of one of the
    six fields; otherwise the result lacks that key and agrees with
    [serialized(with_number=True)] on every other key. *)
Theorem serialized_without_number (NUMBER : string) (c : CreditCard) :
  (serialized NUMBER c false = Throw KeyError <-> ~ In NUMBER field_names) /\
  (In NUMBER field_names ->
   exists d full,
     serialized NUMBER c false = Return d /\
     serialized NUMBER c true = Return full /\
     PyDict.get NUMBER d = None /\
     forall k, k <> NUMBER -> PyDict.get k d = PyDict.get k full).
Proof.
  split.
  - rewrite serialized_without_number_eq.
    destruct (PyDict.get NUMBER _) eqn:E.
    + split; [discriminate|]. intros H. exfalso. apply H.
      rewrite <- (keys_of_items_iter c).
      destruct (in_dec string_dec NUMBER
                       (PyDict.keys (PyDict.of_items (CreditCard_iter c))))
        as [I|I]; [exact I|].
      apply get_none_not_in in I. congruence.
    + split; [|reflexivity]. intros _.
      apply get_none_not_in in E. now rewrite keys_of_items_iter in E.
  - intros H.
    exists (PyDict.remove NUMBER (PyDict.of_items (CreditCard_iter c))),
           (PyDict.of_items (CreditCard_iter c)).
    split; [now apply serialized_without_number_ok|].
    split; [reflexivity|]. split.
    + apply get_remove_same. rewrite keys_of_items_iter.
      apply field_names_nodup.
    + intros k Hk. now apply get_remove_other.
Qed.

Lemma serialized_without_number_witness :
  serialized "number" (with_invalid_number "12a4") false
  = Return [ ("major_industry_identifier", VNone);
             ("issuer_identification_number", VNone);
             ("personal_account_number", VNone);
             ("check_digit", VNone);
             ("is_valid", VBool false) ] /\
  exists d full,
    serialized "number" (with_invalid_number "12a4") false = Return d /\
    serialized "number" (with_invalid_number "12a4") true = Return full /\
    PyDict.get "number" d = None /\
    forall k, k <> "number" -> PyDict.get k d = PyDict.get k full.
Proof.
  split; [reflexivity|].
  apply (proj2 (serialized_without_number "number" (with_invalid_number "12a4"))).
  simpl. now left.
Defined.

(** X9. [ValidateView.get], when [NUMBER] names one of the six fields,
    always returns a response, with status 200 or 400; the status is 200
    exactly when the request carries the parameter and [from_number]
    accepts its value. *)
Theorem validate_view_status
        (NUMBER VALIDATE_BAD_REQUEST_NONE : string) (request : HttpRequest) :
  In NUMBER field_names ->
  exists response,
    ValidateView_get NUMBER VALIDATE_BAD_REQUEST_NONE request = Return response /\
    (status_code response = 200 \/ status_code response = 400) /\
    (status_code response = 200
     <-> exists num r, GET request NUMBER = Some num /\ from_number num = Ok r).
Proof.
  intros H. unfold ValidateView_get.
  destruct (GET request NUMBER) as [num|] eqn:G.
  - rewrite from_number_eq.
    destruct (baluhn.verify num) eqn:V.
    + rewrite (serialized_without_number_ok NUMBER _ H).
      eexists. split; [reflexivity|]. split; [now left|].
      split; [|reflexivity]. intros _.
      exists num, (decomposition num). split; [reflexivity|].
      now rewrite from_number_eq, V.
    + rewrite (serialized_without_number_ok NUMBER _ H).
      eexists. split; [reflexivity|]. split; [now right|].
      split; [discriminate|].
      intros (num' & r & [= <-] & F).
      rewrite from_number_eq, V in F. discriminate.
  - eexists. split; [reflexivity|]. split; [now right|].
    split; [discriminate|]. intros (num & r & F & _). discriminate.
Qed.

Lemma validate_view_status_witness :
  In "number" field_names /\
  exists response,
    ValidateView_get "number" "no number"
      (mkRequest (fun k => if (k =? "number")%string
                           then Some "79927398713" else None))
    = Return response /\
    (status_code response = 200 \/ status_code response = 400) /\
    (status_code response = 200
     <-> exists num r,
         GET (mkRequest (fun k => if (k =? "number")%string
                                  then Some "79927398713" else None))
             "number" = Some num /\
         from_number num = Ok r).
Proof.
  split; [simpl; now left|].
  apply (validate_view_status "number" "no number"). simpl. now left.
Defined.

(** X10. With [NUMBER] the key "number", every value that [from_number]
    rejects gets one and the same response from [ValidateView.get]:
    status 400, the four structural fields [None], [is_valid] false, and
    no trace of the value sent. *)
Theorem validate_view_rejected
        (VALIDATE_BAD_REQUEST_NONE : string) (request : HttpRequest)
        (num : string) :
  GET request "number" = Some num ->
  from_number num = Raise InvalidCardNumberError ->
  ValidateView_get "number" VALIDATE_BAD_REQUEST_NONE request
  = Return {| status_code := 400;
              payload := JsonContent
                           [ ("major_industry_identifier", VNone);
                             ("issuer_identification_number", VNone);
                             ("personal_account_number", VNone);
                             ("check_digit", VNone);
                             ("is_valid", VBool false) ] |}.
Proof.
  intros G F. unfold ValidateView_get. rewrite G, F. reflexivity.
Qed.

Lemma validate_view_rejected_witness :
  from_number "1234567890123456" = Raise InvalidCardNumberError /\
  ValidateView_get "number" "no number" (mkRequest (fun _ => Some "1234567890123456"))
  = Return {| status_code := 400;
              payload := JsonContent
                           [ ("major_industry_identifier", VNone);
                             ("issuer_identification_number", VNone);
                             ("personal_account_number", VNone);
                             ("check_digit", VNone);
                             ("is_valid", VBool false) ] |}.
Proof.
  assert (F : from_number "1234567890123456" = Raise InvalidCardNumberError)
    by (vm_compute; reflexivity).
  split; [exact F|].
  apply (validate_view_rejected "no number" _ "1234567890123456");
    [reflexivity | exact F].
Defined.

(** X11. With [NUMBER] the key "number", a value that [from_number]
    accepts gets status 200 and the four positional slices of the value
    with [is_valid] true; the key "number" itself is left out. *)
Theorem validate_view_accepted
        (VALIDATE_BAD_REQUEST_NONE : string) (request : HttpRequest)
        (num : string) (r : CreditCard) :
  GET request "number" = Some num ->
  from_number num = Ok r ->
  ValidateView_get "number" VALIDATE_BAD_REQUEST_NONE request
  = Return {| status_code := 200;
              payload := JsonContent
                [ ("major_industry_identifier",
                   VStr (Py.slice num None (Some 1%Z)));
                  ("issuer_identification_number",
                   VStr (Py.slice num None (Some 6%Z)));
                  ("personal_account_number",
                   VStr (Py.slice num (Some 6%Z) (Some (-1)%Z)));
                  ("check_digit", VStr (Py.slice num (Some (-1)%Z) None));
                  ("is_valid", VBool true) ] |}.
Proof.
  intros G F. unfold ValidateView_get. rewrite G, F.
  apply from_number_ok in F as [V ->].
  apply verify_true in V as (Hne & _).
  rewrite (slice_first _ Hne), (slice_last _ Hne). reflexivity.
Qed.

Lemma validate_view_accepted_witness :
  from_number "4503495455532271" = Ok (decomposition "4503495455532271") /\
  exists response,
    ValidateView_get "number" "no number"
                     (mkRequest (fun _ => Some "4503495455532271"))
    = Return response /\ status_code response = 200.
Proof.
  assert (F : from_number "4503495455532271"
              = Ok (decomposition "4503495455532271"))
    by (vm_compute; reflexivity).
  split; [exact F|].
  eexists. split.
  - apply (validate_view_accepted
             "no number" (mkRequest (fun _ => Some "4503495455532271"))
             "4503495455532271" _ eq_refl F).
  - reflexivity.
Defined.

Section GenerateViewFacts.

Lemma generate_from_iin_contract
      (CARD_LENGTH : Z) (entropy : nat -> nat) (iin : string) :
  1 <= String.length iin <= 2 -> Py.isdigit iin = true ->
  all_decimal iin = false ->
  generate_from_iin CARD_LENGTH entropy iin = Raise ProgrammerError.
Proof.
  intros L I D.
  destruct (generate_from_iin CARD_LENGTH entropy iin) as [r|e] eqn:E.
  - apply generate_from_iin_ok_inv in E as [_ E]. congruence.
  - destruct (generate_from_iin_raise _ _ _ _ E) as [->| ->]; [|reflexivity].
    apply generate_from_iin_guard in E.
    rewrite (proj2 (iin_length_guard iin) L), I in E. discriminate.
Qed.

Lemma generate_from_iin_rejected
      (CARD_LENGTH : Z) (entropy : nat -> nat) (iin : string) :
  ~ 1 <= String.length iin <= 2 \/ Py.isdigit iin = false ->
  generate_from_iin CARD_LENGTH entropy iin = Raise InvalidIinError.
Proof.
  intros H. apply generate_from_iin_guard.
  apply orb_true_iff. destruct H as [H|H].
  - left. apply negb_true_iff. apply not_true_iff_false.
    now rewrite iin_length_guard.
  - right. now rewrite H.
Qed.

End GenerateViewFacts.

(** X12. [GenerateView.get] by cases on the [iin] parameter: missing, it
    answers 400 with the configured message; of a length other than 1 or
    2, or failing [isdigit], 400 with the fixed IIN message; one or two
    characters '0'..'9', 200 whatever [NUMBER], the configured length and
    the draws are, with the six fields of a number that starts with the
    prefix, [_state] and [id] left out; one or two characters that pass
    [isdigit] without being decimal, no response at all but the uncaught
    contract violation of the check-digit primitive. *)
Theorem generate_view_outcome
        (NUMBER GENERATE_BAD_REQUEST_NONE : string) (CARD_LENGTH : Z)
        (entropy : nat -> nat) (request : HttpRequest) :
  let view :=
    GenerateView_get NUMBER GENERATE_BAD_REQUEST_NONE CARD_LENGTH entropy request in
  (GET request "iin" = None ->
   view = Return {| status_code := 400;
                    payload := JsonContent
                                 [("error", VStr GENERATE_BAD_REQUEST_NONE)] |}) /\
  (forall iin,
      GET request "iin" = Some iin ->
      (~ 1 <= String.length iin <= 2 \/ Py.isdigit iin = false ->
       view = Return
                {| status_code := 400;
                   payload := JsonContent
                     [("error",
                       VStr "IINs should be only digits and either length one or two. Try 65!")] |}) /\
      (1 <= String.length iin <= 2 /\ all_decimal iin = true ->
       exists digits,
         prefix iin digits = true /\
         view = Return
                  {| status_code := 200;
                     payload := JsonContent
                       [ ("number", VStr digits);
                         ("major_industry_identifier",
                          VStr (Py.slice digits None (Some 1%Z)));
                         ("issuer_identification_number",
                          VStr (Py.slice digits None (Some 6%Z)));
                         ("personal_account_number",
                          VStr (Py.slice digits (Some 6%Z) (Some (-1)%Z)));
                         ("check_digit",
                          VStr (Py.slice digits (Some (-1)%Z) None));
                         ("is_valid", VBool true) ] |}) /\
      (1 <= String.length iin <= 2 /\ Py.isdigit iin = true /\
       all_decimal iin = false ->
       view = Throw (Engine ProgrammerError))).
Proof.
  cbv zeta. unfold GenerateView_get. split.
  - intros ->. reflexivity.
  - intros iin ->. repeat split.
    + intros H. now rewrite (generate_from_iin_rejected _ _ _ H).
    + intros [L D].
      destruct (generate_from_iin_valid CARD_LENGTH entropy iin L D)
        as (d & _ & _ & V & E & _).
      rewrite E.
      exists (digits_without_check_digit CARD_LENGTH entropy iin ++ Py.str d).
      split.
      * unfold digits_without_check_digit. rewrite append_assoc.
        apply prefix_append.
      * apply verify_true in V as (Hne & _).
        rewrite (slice_first _ Hne), (slice_last _ Hne). reflexivity.
    + intros (L & I & D).
      now rewrite (generate_from_iin_contract _ _ _ L I D).
Qed.

Lemma generate_view_outcome_witness :
  (exists digits,
      prefix "45" digits = true /\
      GenerateView_get "number" "no iin" 16 (fun i => i)
                       (mkRequest (fun _ => Some "45"))
      = Return
          {| status_code := 200;
             payload := JsonContent
               [ ("number", VStr digits);
                 ("major_industry_identifier",
                  VStr (Py.slice digits None (Some 1%Z)));
                 ("issuer_identification_number",
                  VStr (Py.slice digits None (Some 6%Z)));
                 ("personal_account_number",
                  VStr (Py.slice digits (Some 6%Z) (Some (-1)%Z)));
                 ("check_digit",
                  VStr (Py.slice digits (Some (-1)%Z) None));
                 ("is_valid", VBool true) ] |}) /\
  GenerateView_get "number" "no iin" 16 (fun i => i)
                   (mkRequest (fun _ => Some "123"))
  = Return
      {| status_code := 400;
         payload := JsonContent
           [("error",
             VStr "IINs should be only digits and either length one or two. Try 65!")] |}.
Proof.
  split.
  - apply (proj1 (proj2 (proj2 (generate_view_outcome
                                  "number" "no iin" 16 (fun i => i)
                                  (mkRequest (fun _ => Some "45")))
                               "45" eq_refl))).
    split; [simpl; lia | reflexivity].
  - apply (proj1 (proj2 (generate_view_outcome
                           "number" "no iin" 16 (fun i => i)
                           (mkRequest (fun _ => Some "123")))
                        "123" eq_refl)).
    left. simpl. lia.
Defined.

(** X13. The two endpoints compose: for a prefix of one or two characters
    '0'..'9', [GenerateView.get] answers 200 with a dictionary that holds
    a number, and [ValidateView.get] on that number answers 200 with that
    same dictionary less the key [NUMBER] (when [NUMBER] names one of the
    six fields). *)
Theorem generated_number_validates
        (NUMBER VALIDATE_BAD_REQUEST_NONE GENERATE_BAD_REQUEST_NONE : string)
        (CARD_LENGTH : Z) (entropy : nat -> nat)
        (request : HttpRequest) (iin : string) :
  In NUMBER field_names ->
  GET request "iin" = Some iin ->
  1 <= String.length iin <= 2 -> all_decimal iin = true ->
  exists digits data,
    GenerateView_get NUMBER GENERATE_BAD_REQUEST_NONE CARD_LENGTH entropy request
    = Return {| status_code := 200; payload := JsonContent data |} /\
    PyDict.get "number" data = Some (VStr digits) /\
    forall request',
      GET request' NUMBER = Some digits ->
      ValidateView_get NUMBER VALIDATE_BAD_REQUEST_NONE request'
      = Return {| status_code := 200;
                  payload := JsonContent (PyDict.remove NUMBER data) |}.
Proof.
  intros H G L D.
  destruct (generate_from_iin_valid CARD_LENGTH entropy iin L D)
    as (d & _ & _ & V & E & _).
  eexists. eexists. split; [|split].
  - unfold GenerateView_get. rewrite G, E. reflexivity.
  - reflexivity.
  - intros request' G'. unfold ValidateView_get.
    rewrite G', from_number_eq, V.
    now rewrite (serialized_without_number_ok NUMBER _ H).
Qed.

Lemma generated_number_validates_witness :
  (In "number" field_names /\
   GET (mkRequest (fun _ => Some "45")) "iin" = Some "45" /\
   1 <= String.length "45" <= 2 /\ all_decimal "45" = true) /\
  exists digits data,
    GenerateView_get "number" "no iin" 16 (fun i => i)
                     (mkRequest (fun _ => Some "45"))
    = Return {| status_code := 200; payload := JsonContent data |} /\
    PyDict.get "number" data = Some (VStr digits) /\
    forall request',
      GET request' "number" = Some digits ->
      ValidateView_get "number" "no number" request'
      = Return {| status_code := 200;
                  payload := JsonContent (PyDict.remove "number" data) |}.
Proof.
  split.
  - repeat split; try reflexivity; simpl; try lia. now left.
  - apply (generated_number_validates
             "number" "no number" "no iin" 16 (fun i => i)
             (mkRequest (fun _ => Some "45")) "45");
      [simpl; now left | reflexivity | simpl; lia | reflexivity].
Defined.
